(** * AFEM: the Boolean-operation facade (afem/topology/bop.py) and the
      array marshalling layer (afem/utils/tcol.py)

    Both files are thin Python layers over the OpenCASCADE kernel.  The host
    side (Python values, exceptions, warnings, loops) is embedded as it is
    written; the kernel objects the code drives are modelled by what the
    code can do to them and observe from them. *)

From Stdlib Require Import ZArith String Bool Lia PrimFloat SpecFloat FloatOps.
From stdpp Require Import base list.
Local Open Scope Z_scope.

(** ** Host values *)

(** [gp_Pnt] and [gp_Pnt2d]: kernel points, read through X(), Y(), Z(). *)
Record gp_Pnt := mk_gp_Pnt { Pnt_X : float; Pnt_Y : float; Pnt_Z : float }.
Record gp_Pnt2d := mk_gp_Pnt2d { Pnt2d_X : float; Pnt2d_Y : float }.

(** The Python objects that reach the two modules.  Python floats are
    binary64 values, ints are unbounded.  [Py_TopoDS_Shape h] is a kernel
    shape, opaque but for its identity [h]. *)
#[warnings="-register-all"]
Inductive pyobj : Type :=
| PyNone
| PyInt (z : Z)
| PyFloat (x : float)
| PyStr (s : string)
| PyList (items : list pyobj)
| PyTuple (items : list pyobj)
| Py_gp_Pnt (p : gp_Pnt)
| Py_gp_Pnt2d (p : gp_Pnt2d)
| Py_TopoDS_Shape (h : nat).

(** Exceptions raised by the host runtime or by the kernel bindings. *)
Inductive exn : Type :=
| TypeError
| ValueError
| OverflowError
| AttributeError
| IndexError
| Standard_OutOfRange
| Standard_RangeError.

Inductive result (A : Type) : Type :=
| Ok (a : A)
| Raise (e : exn).
Arguments Ok {A} a.
Arguments Raise {A} e.

Definition rbind {A B : Type} (m : result A) (k : A -> result B) : result B :=
  match m with
  | Ok a => k a
  | Raise e => Raise e
  end.

Declare Scope py_scope.
Delimit Scope py_scope with py.
Notation "x <- m ;; k" := (rbind m (fun x => k))
  (at level 100, m at next level, right associativity) : py_scope.
Local Open Scope py_scope.

(** ** afem/topology/bop.py *)

Module Bop.

(** The five kernel engine classes handed to [BopAlgo.__init__] as [bop]. *)
Inductive bop_class : Type :=
| BRepAlgoAPI_Fuse
| BRepAlgoAPI_Cut
| BRepAlgoAPI_Common
| BRepAlgoAPI_Section
| GEOMAlgo_Splitter.

(** The state-changing engine methods the facade calls. *)
Inductive call : Type :=
| SetRunParallel (flag : bool)
| SetFuzzyValue (v : float)
| AddArgument (s : pyobj)
| AddTool (s : pyobj)
| SetArguments (l : list pyobj)
| SetTools (l : list pyobj)
| Perform
| Build
| RefineEdges.

(** An engine object is determined by its class, the operands its
    constructor received and the calls made on it since, oldest first. *)
Record engine : Type := mk_engine {
  e_class : bop_class;
  e_operands : list pyobj;
  e_calls : list call
}.

(** What the kernel itself decides: which of the operand and execution
    methods an engine class answers (the facade picks them by engine kind),
    and what the status queries report for a given engine. *)
Record Kernel : Type := {
  responds : bop_class -> call -> bool;
  IsDone : engine -> bool;
  ErrorStatus : engine -> Z;
  FuseEdges : engine -> bool;
  SectionEdges : engine -> list pyobj
}.

(** Modelled from the spec: [CheckShape.is_shape] (afem/topology/check.py is
    not part of the sources at hand): true exactly for "a valid geometric
    shape", that is for a kernel shape object. *)
Definition is_shape (shape : pyobj) : bool :=
  match shape with
  | Py_TopoDS_Shape _ => true
  | _ => false
  end.

(** Modelled from the spec: [to_toptools_listofshape] (afem/occ/utils.py is
    not part of the sources at hand) copies a host sequence of shapes to a
    kernel list, element by element. *)
Definition to_toptools_listofshape (shapes : list pyobj) : list pyobj := shapes.

(** Modelled from the spec: [to_lst_from_toptools_listofshape]
    (afem/occ/utils.py is not part of the sources at hand) copies a kernel
    list of shapes to a host list, element by element. *)
Definition to_lst_from_toptools_listofshape (shapes : list pyobj) : list pyobj := shapes.

(** [bop()] and [bop(shape1, shape2)].  Every engine class has the
    zero-operand constructor; the splitter has no two-operand one. *)
Definition construct (bop : bop_class) (operands : list pyobj) : result engine :=
  match operands with
  | [] => Ok (mk_engine bop [] [])
  | [_; _] =>
      match bop with
      | GEOMAlgo_Splitter => Raise TypeError
      | _ => Ok (mk_engine bop operands [])
      end
  | _ => Raise TypeError
  end.

Definition record (c : call) (e : engine) : engine :=
  mk_engine (e_class e) (e_operands e) (e_calls e ++ [c]).

(** A call of an operand or execution method: an engine class that lacks
    the method raises AttributeError, otherwise the call reaches the engine. *)
Definition invoke (K : Kernel) (c : call) (e : engine) : result engine :=
  if responds K (e_class e) c then Ok (record c e) else Raise AttributeError.

(** class BopAlgo: the facade owns exactly one engine, [self._bop]. *)
Record BopAlgo : Type := mk_BopAlgo { _bop : engine }.

Definition BopAlgo__init__ (shape1 shape2 : pyobj) (parallel : bool)
    (fuzzy_val : option float) (bop : bop_class) : result BopAlgo :=
  e <- (if is_shape shape1 && is_shape shape2
        then construct bop [shape1; shape2]
        else construct bop []) ;;
  let e := if parallel then record (SetRunParallel true) e else e in
  let e := match fuzzy_val with
           | Some v => record (SetFuzzyValue v) e
           | None => e
           end in
  Ok (mk_BopAlgo e).

Definition _is_splitter (self : BopAlgo) : bool :=
  match e_class (_bop self) with
  | GEOMAlgo_Splitter => true
  | _ => false
  end.

(** [set_args]: on a splitter the loop body returns in its first iteration;
    with no iteration the method falls through to [SetArguments]. *)
Definition set_args (K : Kernel) (self : BopAlgo) (shapes : list pyobj) : result BopAlgo :=
  let fallthrough :=
    (let args := to_toptools_listofshape shapes in
     e <- invoke K (SetArguments args) (_bop self) ;; Ok (mk_BopAlgo e)) in
  if _is_splitter self then
    match shapes with
    | shape :: _ => e <- invoke K (AddArgument shape) (_bop self) ;; Ok (mk_BopAlgo e)
    | [] => fallthrough
    end
  else fallthrough.

Definition set_tools (K : Kernel) (self : BopAlgo) (shapes : list pyobj) : result BopAlgo :=
  let fallthrough :=
    (let tools := to_toptools_listofshape shapes in
     e <- invoke K (SetTools tools) (_bop self) ;; Ok (mk_BopAlgo e)) in
  if _is_splitter self then
    match shapes with
    | shape :: _ => e <- invoke K (AddTool shape) (_bop self) ;; Ok (mk_BopAlgo e)
    | [] => fallthrough
    end
  else fallthrough.

Definition build (K : Kernel) (self : BopAlgo) : result BopAlgo :=
  if _is_splitter self
  then e <- invoke K Perform (_bop self) ;; Ok (mk_BopAlgo e)
  else e <- invoke K Build (_bop self) ;; Ok (mk_BopAlgo e).

Definition is_done (K : Kernel) (self : BopAlgo) : bool :=
  if _is_splitter self
  then ErrorStatus K (_bop self) =? 0
  else IsDone K (_bop self).

(** The process-wide warning stream written by [warnings.warn] (under the
    interpreter's default filter a warning is recorded, not raised). *)
Inductive category : Type := RuntimeWarning.
Definition warning : Type := (string * category)%type.
Definition warn (message : string) (c : category) (stream : list warning) : list warning :=
  stream ++ [(message, c)].

Definition refine_edges (K : Kernel) (self : BopAlgo) (stream : list warning)
    : result (BopAlgo * list warning) :=
  if _is_splitter self
  then Ok (self, warn "Refine edges not implemented for GEOMAlgo_Splitter."
                      RuntimeWarning stream)
  else e <- invoke K RefineEdges (_bop self) ;; Ok (mk_BopAlgo e, stream).

Definition fuse_edges (K : Kernel) (self : BopAlgo) : bool :=
  if _is_splitter self then false else FuseEdges K (_bop self).

Definition section_edges (K : Kernel) (self : BopAlgo) (stream : list warning)
    : list pyobj * list warning :=
  if _is_splitter self
  then ([], warn "Section edges not implemented for GEOMAlgo_Splitter. Returning empty list."
                 RuntimeWarning stream)
  else (to_lst_from_toptools_listofshape (SectionEdges K (_bop self)), stream).

(** The five subclasses.  Defaults of the optional parameters:
    shape1=None, shape2=None, parallel=True, fuzzy_val=None. *)
Definition FuseShapes (shape1 shape2 : pyobj) (parallel : bool) (fuzzy_val : option float) :=
  BopAlgo__init__ shape1 shape2 parallel fuzzy_val BRepAlgoAPI_Fuse.
Definition CutShapes (shape1 shape2 : pyobj) (parallel : bool) (fuzzy_val : option float) :=
  BopAlgo__init__ shape1 shape2 parallel fuzzy_val BRepAlgoAPI_Cut.
Definition CommonShapes (shape1 shape2 : pyobj) (parallel : bool) (fuzzy_val : option float) :=
  BopAlgo__init__ shape1 shape2 parallel fuzzy_val BRepAlgoAPI_Common.
Definition IntersectShapes (shape1 shape2 : pyobj) (parallel : bool) (fuzzy_val : option float) :=
  BopAlgo__init__ shape1 shape2 parallel fuzzy_val BRepAlgoAPI_Section.

Definition SplitShapes (K : Kernel) (shape1 shape2 : pyobj) (parallel : bool)
    (fuzzy_val : option float) : result BopAlgo :=
  self <- BopAlgo__init__ PyNone PyNone parallel fuzzy_val GEOMAlgo_Splitter ;;
  if is_shape shape1 && is_shape shape2 then
    e <- invoke K (AddArgument shape1) (_bop self) ;;
    e <- invoke K (AddArgument shape2) e ;;
    e <- invoke K Perform e ;;
    Ok (mk_BopAlgo e)
  else Ok self.

Definition add_arg (K : Kernel) (self : BopAlgo) (shape : pyobj) : result BopAlgo :=
  e <- invoke K (AddArgument shape) (_bop self) ;; Ok (mk_BopAlgo e).
Definition add_tool (K : Kernel) (self : BopAlgo) (shape : pyobj) : result BopAlgo :=
  e <- invoke K (AddTool shape) (_bop self) ;; Ok (mk_BopAlgo e).

(** The calls [BopAlgo.__init__] makes after constructing the engine. *)
Definition configuration (parallel : bool) (fuzzy_val : option float) : list call :=
  (if parallel then [SetRunParallel true] else []) ++
  (match fuzzy_val with Some v => [SetFuzzyValue v] | None => [] end).

Definition is_execution (c : call) : bool :=
  match c with
  | Perform | Build => true
  | _ => false
  end.

(** A kernel whose splitter answers the three methods the facade calls on
    it without a guard ([SplitShapes.__init__], [add_arg], [add_tool]). *)
Definition splitter_api (K : Kernel) : Prop :=
  (forall s, responds K GEOMAlgo_Splitter (AddArgument s) = true) /\
  (forall s, responds K GEOMAlgo_Splitter (AddTool s) = true) /\
  responds K GEOMAlgo_Splitter Perform = true.

(** A kernel that behaves as the class docstrings show it: the two-operand
    constructor of a BRepAlgoAPI engine runs the operation itself
    ([bop = FuseShapes(e1, e2)] followed by [assert bop.is_done]), [Build]
    runs it on an engine configured by hand, the splitter answers
    AddArgument, AddTool and Perform and reports error status 0 once
    [Perform] has run. *)
Definition doctest_kernel : Kernel := {|
  responds c m :=
    match c, m with
    | GEOMAlgo_Splitter, (AddArgument _ | AddTool _ | Perform) => true
    | GEOMAlgo_Splitter, _ => false
    | _, (SetArguments _ | SetTools _ | Build | RefineEdges) => true
    | _, _ => false
    end;
  IsDone e :=
    match e_operands e with
    | [_; _] => true
    | _ => existsb is_execution (e_calls e)
    end;
  ErrorStatus e :=
    match last (e_calls e) with
    | Some Perform => 0
    | _ => 1
    end;
  FuseEdges e := false;
  SectionEdges e := []
|}.

(** A kernel whose engines answer the same methods and do not complete the
    operation: the status queries keep reporting failure after [Perform]
    and [Build], the case the facade leaves to [is_done] to report. *)
Definition failing_kernel : Kernel := {|
  responds := responds doctest_kernel;
  IsDone e := false;
  ErrorStatus e := 1;
  FuseEdges e := false;
  SectionEdges e := []
|}.

(** The two shapes of the class doctests. *)
Definition e1 : pyobj := Py_TopoDS_Shape 1.
Definition e2 : pyobj := Py_TopoDS_Shape 2.

(** A splitter built with no operands: [SplitShapes()]. *)
Definition empty_splitter : BopAlgo :=
  mk_BopAlgo (mk_engine GEOMAlgo_Splitter [] [SetRunParallel true]).

(** The sequence of the class docstrings for an instance built without
    operands: [bop.set_args(args)], [bop.set_tools(tools)], [bop.build()]. *)
Definition by_hand (K : Kernel) (self : BopAlgo) (args tools : list pyobj)
    : result BopAlgo :=
  self <- set_args K self args ;;
  self <- set_tools K self tools ;;
  build K self.

(** [for shape in shapes: bop.add_arg(shape)] and the same with [add_tool]. *)
Fixpoint add_args (K : Kernel) (self : BopAlgo) (shapes : list pyobj)
    : result BopAlgo :=
  match shapes with
  | [] => Ok self
  | shape :: shapes' => self' <- add_arg K self shape ;; add_args K self' shapes'
  end.

Fixpoint add_tools (K : Kernel) (self : BopAlgo) (shapes : list pyobj)
    : result BopAlgo :=
  match shapes with
  | [] => Ok self
  | shape :: shapes' => self' <- add_tool K self shape ;; add_tools K self' shapes'
  end.

(** [self'] is [self] after more calls: the same engine class, the same
    constructor operands, the calls of [self] followed by [cs]. *)
Definition extended_by (cs : list call) (self self' : BopAlgo) : Prop :=
  e_class (_bop self') = e_class (_bop self) /\
  e_operands (_bop self') = e_operands (_bop self) /\
  e_calls (_bop self') = e_calls (_bop self) ++ cs.

(** A kernel whose BRepAlgoAPI engines answer the methods the facade calls
    on them. *)
Definition standard_api (K : Kernel) (bop : bop_class) : Prop :=
  (forall l, responds K bop (SetArguments l) = true) /\
  (forall l, responds K bop (SetTools l) = true) /\
  responds K bop Build = true /\
  responds K bop RefineEdges = true.

End Bop.

(** ** afem/utils/tcol.py *)

Module Tcol.

(** *** Host runtime *)

(** An int read as a binary64 value, rounded to nearest even. *)
Definition float_of_Z (z : Z) : float :=
  SF2Prim (binary_normalize prec emax z 0 false).

(** A finite binary64 value cut towards zero. *)
Definition trunc (x : float) : Z :=
  match Prim2SF x with
  | S754_finite s m e =>
      let v := if 0 <=? e then Z.pos m * 2 ^ e else Z.pos m / 2 ^ (- e) in
      if s then - v else v
  | _ => 0
  end.

Section Builtins.

(** The text parsers of the host's [float(str)] and [int(str)]; [None] is
    a text that does not denote a number (ValueError). *)
Variable float_of_string : string -> option float.
Variable int_of_string : string -> option Z.

(** [float(x)] *)
Definition py_float (x : pyobj) : result float :=
  match x with
  | PyFloat v => Ok v
  | PyInt z =>
      let v := float_of_Z z in
      if is_infinity v then Raise OverflowError else Ok v
  | PyStr s =>
      match float_of_string s with
      | Some v => Ok v
      | None => Raise ValueError
      end
  | _ => Raise TypeError
  end.

(** [int(x)] *)
Definition py_int (x : pyobj) : result Z :=
  match x with
  | PyInt z => Ok z
  | PyFloat v =>
      if is_nan v then Raise ValueError
      else if is_infinity v then Raise OverflowError
      else Ok (trunc v)
  | PyStr s =>
      match int_of_string s with
      | Some z => Ok z
      | None => Raise ValueError
      end
  | _ => Raise TypeError
  end.

End Builtins.

(** [len(p)] of a list or tuple. *)
Definition len {A : Type} (l : list A) : Z := Z.of_nat (length l).

(** [for x in l: s = body(x, s)], stopping at the first exception. *)
Fixpoint for_each {A S : Type} (l : list A) (body : A -> S -> result S) (s : S)
    : result S :=
  match l with
  | [] => Ok s
  | x :: l' => s' <- body x s ;; for_each l' body s'
  end.

(** [[f(x) for x in l]] *)
Definition comprehension {A B : Type} (f : A -> result B) (l : list A)
    : result (list B) :=
  for_each l (fun x acc => y <- f x ;; Ok (acc ++ [y])) [].

(** [enumerate(l, start)] *)
Fixpoint enumerate {A : Type} (l : list A) (start : Z) : list (Z * A) :=
  match l with
  | [] => []
  | x :: l' => (start, x) :: enumerate l' (start + 1)
  end.

(** [range(n)] *)
Definition range (n : Z) : list Z := map Z.of_nat (seq 0 (Z.to_nat n)).

(** Modelled from the spec: [is_array_like] (afem/utils/misc.py is not part
    of the sources at hand): the "array-like" host objects are the
    sequences, lists and tuples; a row of a NumPy array is seen as the list
    of its items. *)
Definition is_array_like (p : pyobj) : bool :=
  match p with
  | PyList _ | PyTuple _ => true
  | _ => false
  end.

Definition items_of (p : pyobj) : list pyobj :=
  match p with
  | PyList l | PyTuple l => l
  | _ => []
  end.

(** A Python argument handed to a kernel parameter of type double: floats
    and ints that fit are accepted, anything else is a TypeError. *)
Definition as_double (x : pyobj) : result float :=
  match x with
  | PyFloat v => Ok v
  | PyInt z =>
      let v := float_of_Z z in
      if is_infinity v then Raise TypeError else Ok v
  | _ => Raise TypeError
  end.

(** The point constructors [gp_Pnt] and [gp_Pnt2d] called on the unpacked
    items of [p]. *)
Definition gp_Pnt_new (args : list pyobj) : result gp_Pnt :=
  match args with
  | [a; b; c] =>
      x <- as_double a ;; y <- as_double b ;; z <- as_double c ;;
      Ok (mk_gp_Pnt x y z)
  | _ => Raise TypeError
  end.

Definition gp_Pnt2d_new (args : list pyobj) : result gp_Pnt2d :=
  match args with
  | [a; b] => x <- as_double a ;; y <- as_double b ;; Ok (mk_gp_Pnt2d x y)
  | _ => Raise TypeError
  end.

Definition _to_gp_pnt (p : pyobj) : result (option gp_Pnt) :=
  match p with
  | Py_gp_Pnt q => Ok (Some q)
  | _ =>
      if is_array_like p && (len (items_of p) =? 3)
      then q <- gp_Pnt_new (items_of p) ;; Ok (Some q)
      else Ok None
  end.

Definition _to_gp_pnt2d (p : pyobj) : result (option gp_Pnt2d) :=
  match p with
  | Py_gp_Pnt2d q => Ok (Some q)
  | _ =>
      if is_array_like p && (len (items_of p) =? 2)
      then q <- gp_Pnt2d_new (items_of p) ;; Ok (Some q)
      else Ok None
  end.

(** *** Kernel arrays *)

(** A kernel array with fixed bounds [Lower..Upper]. *)
Record Array1 (A : Type) : Type := mk_Array1 {
  Lower : Z;
  Upper : Z;
  cells : list A
}.
Arguments mk_Array1 {A} _ _ _.
Arguments Lower {A} _.
Arguments Upper {A} _.
Arguments cells {A} _.

Definition Length {A : Type} (a : Array1 A) : Z := Upper a - Lower a + 1.

Definition SetValue {A : Type} (i : Z) (v : A) (a : Array1 A) : result (Array1 A) :=
  if (Lower a <=? i) && (i <=? Upper a)
  then Ok (mk_Array1 (Lower a) (Upper a) (<[Z.to_nat (i - Lower a) := v]> (cells a)))
  else Raise Standard_OutOfRange.

Definition Value {A : Type} (i : Z) (a : Array1 A) : result A :=
  if (Lower a <=? i) && (i <=? Upper a)
  then match cells a !! Z.to_nat (i - Lower a) with
       | Some v => Ok v
       | None => Raise Standard_OutOfRange
       end
  else Raise Standard_OutOfRange.

(** Code that allocates kernel arrays runs against the number of arrays
    allocated so far; an exception leaves the count as it was when raised. *)
Definition M (A : Type) : Type := nat -> result A * nat.

Definition mret {A : Type} (a : A) : M A := fun n => (Ok a, n).
Definition mbind {A B : Type} (m : M A) (k : A -> M B) : M B :=
  fun n => match m n with
           | (Ok a, n') => k a n'
           | (Raise e, n') => (Raise e, n')
           end.
Definition lift {A : Type} (r : result A) : M A := fun n => (r, n).

Declare Scope kernel_scope.
Delimit Scope kernel_scope with kernel.
Notation "x <- m ;; k" := (mbind m (fun x => k))
  (at level 100, m at next level, right associativity) : kernel_scope.

(** The array constructors [T(lower, upper)].  The kernel refuses an empty
    range: with [upper < lower] the constructor raises Standard_RangeError
    and no array is created.  Otherwise: one allocation, cells
    default-initialised. *)
Definition Array1_new {A : Type} (dflt : A) (lower upper : Z) : M (Array1 A) :=
  fun n =>
    if upper <? lower then (Raise Standard_RangeError, n)
    else (Ok (mk_Array1 lower upper (replicate (Z.to_nat (upper - lower + 1)) dflt)),
          S n).

Definition origin : gp_Pnt := mk_gp_Pnt 0 0 0.
Definition origin2d : gp_Pnt2d := mk_gp_Pnt2d 0 0.

Definition TColgp_Array1OfPnt := Array1_new origin.
Definition TColgp_HArray1OfPnt := Array1_new origin.
Definition TColgp_Array1OfPnt2d := Array1_new origin2d.
Definition TColStd_Array1OfReal := Array1_new 0%float.
Definition TColStd_Array1OfInteger := Array1_new 0%Z.

(** [TColStd_Array1OfInteger.SetValue]: the value has to fit the kernel's
    32-bit Standard_Integer. *)
Definition SetValue_integer (i : Z) (x : Z) (a : Array1 Z) : result (Array1 Z) :=
  if (- 2 ^ 31 <=? x) && (x <? 2 ^ 31) then SetValue i x a else Raise OverflowError.

(** *** Host arrays *)

(** [zeros(n)] and [zeros((n, m))]; a negative extent is a ValueError. *)
Definition zeros (n : Z) : result (list float) :=
  if n <? 0 then Raise ValueError else Ok (replicate (Z.to_nat n) 0%float).
Definition zeros2 (n m : Z) : result (list (list float)) :=
  (row <- zeros m ;;
   if n <? 0 then Raise ValueError else Ok (replicate (Z.to_nat n) row))%py.

(** [array[i] = v] with [0 <= i] *)
Definition setitem {A : Type} (i : Z) (v : A) (array : list A) : result (list A) :=
  if (0 <=? i) && (i <? len array)
  then Ok (<[Z.to_nat i := v]> array)
  else Raise IndexError.

(** A NumPy array of dtype float, as the nesting of its axes. *)
#[warnings="-register-all"]
Inductive ndarray : Type :=
| NdScalar (x : float)
| NdArray (items : list ndarray).

Fixpoint shape (a : ndarray) : list nat :=
  match a with
  | NdScalar _ => []
  | NdArray items =>
      length items :: match items with
                      | [] => []
                      | x :: _ => shape x
                      end
  end.

(** [pnts[i, j]] *)
Definition item2 (a : ndarray) (i j : Z) : result ndarray :=
  match a with
  | NdArray rows =>
      match rows !! Z.to_nat i with
      | Some (NdArray row) =>
          match row !! Z.to_nat j with
          | Some x => Ok x
          | None => Raise IndexError
          end
      | _ => Raise IndexError
      end
  | NdScalar _ => Raise IndexError
  end.

(** The host object an array item is: a scalar is a float, a sub-array is
    array-like and unpacks into its items. *)
Fixpoint as_pyobj (a : ndarray) : pyobj :=
  match a with
  | NdScalar x => PyFloat x
  | NdArray items => PyList (map as_pyobj items)
  end.

(** [n, m = pnts.shape[0:2]] *)
Definition shape2 (a : ndarray) : result (Z * Z) :=
  match shape a with
  | n :: m :: _ => Ok (Z.of_nat n, Z.of_nat m)
  | _ => Raise ValueError
  end.

(** A kernel array with bounds [1..n] by [1..m].  Its constructors refuse an
    empty range of rows or columns like the one-dimensional ones. *)
Record Array2 (A : Type) : Type := mk_Array2 {
  LowerRow : Z;
  UpperRow : Z;
  LowerCol : Z;
  UpperCol : Z;
  rows : list (list A)
}.
Arguments mk_Array2 {A} _ _ _ _ _.
Arguments LowerRow {A} _.
Arguments UpperRow {A} _.
Arguments LowerCol {A} _.
Arguments UpperCol {A} _.
Arguments rows {A} _.

(** [TColgp_Array2OfPnt(r1, r2, c1, c2)]: refused with Standard_RangeError,
    no array created, when the row or the column range is empty. *)
Definition TColgp_Array2OfPnt (r1 r2 c1 c2 : Z) : M (Array2 gp_Pnt) :=
  fun n =>
    if (r2 <? r1) || (c2 <? c1) then (Raise Standard_RangeError, n)
    else (Ok (mk_Array2 r1 r2 c1 c2
                (replicate (Z.to_nat (r2 - r1 + 1))
                           (replicate (Z.to_nat (c2 - c1 + 1)) origin))),
          S n).

(** [TColgp_Array2OfPnt.SetValue(i, j, gp)]: [None] is not a point. *)
Definition SetValue2 (i j : Z) (gp : option gp_Pnt) (a : Array2 gp_Pnt)
    : result (Array2 gp_Pnt) :=
  match gp with
  | None => Raise TypeError
  | Some p =>
      if (LowerRow a <=? i) && (i <=? UpperRow a) &&
         (LowerCol a <=? j) && (j <=? UpperCol a)
      then Ok (mk_Array2 (LowerRow a) (UpperRow a) (LowerCol a) (UpperCol a)
                 (alter (fun row => <[Z.to_nat (j - LowerCol a) := p]> row)
                        (Z.to_nat (i - LowerRow a)) (rows a)))
      else Raise Standard_OutOfRange
  end.

(** *** The conversions *)

Definition to_tcolgp_array1_pnt (pnts : list pyobj) : M (Array1 gp_Pnt) :=
  (gp_pnts <- lift (for_each pnts
                      (fun gp gp_pnts =>
                         (gp <- _to_gp_pnt gp ;;
                          match gp with
                          | None => Ok gp_pnts
                          | Some gp => Ok (gp_pnts ++ [gp])
                          end)%py) []) ;;
   let n := len gp_pnts in
   array <- TColgp_Array1OfPnt 1 n ;;
   lift (for_each (enumerate gp_pnts 1)
                  (fun '(i, gp) array => SetValue i gp array) array))%kernel.

Definition to_tcolgp_array1_pnt2d (pnts : list pyobj) : M (Array1 gp_Pnt2d) :=
  (gp_pnts <- lift (for_each pnts
                      (fun gp gp_pnts =>
                         (gp <- _to_gp_pnt2d gp ;;
                          match gp with
                          | None => Ok gp_pnts
                          | Some gp => Ok (gp_pnts ++ [gp])
                          end)%py) []) ;;
   let n := len gp_pnts in
   array <- TColgp_Array1OfPnt2d 1 n ;;
   lift (for_each (enumerate gp_pnts 1)
                  (fun '(i, gp) array => SetValue i gp array) array))%kernel.

Definition to_tcolgp_harray1_pnt (pnts : list pyobj) : M (Array1 gp_Pnt) :=
  (gp_pnts <- lift (for_each pnts
                      (fun gp gp_pnts =>
                         (gp <- _to_gp_pnt gp ;;
                          match gp with
                          | None => Ok gp_pnts
                          | Some gp => Ok (gp_pnts ++ [gp])
                          end)%py) []) ;;
   let n := len gp_pnts in
   harray <- TColgp_HArray1OfPnt 1 n ;;
   lift (for_each (enumerate gp_pnts 1)
                  (fun '(i, gp) harray => SetValue i gp harray) harray))%kernel.

Definition to_np_from_tcolgp_array1_pnt (tcol_array : Array1 gp_Pnt)
    : result (list (list float)) :=
  let n := Length tcol_array in
  array <- zeros2 n 3 ;;
  for_each (range n)
           (fun i array =>
              p <- Value (i + 1) tcol_array ;;
              setitem i [Pnt_X p; Pnt_Y p; Pnt_Z p] array) array.

Section Conversions.

Variable float_of_string : string -> option float.
Variable int_of_string : string -> option Z.

Definition to_tcolstd_array1_real (array : list pyobj) : M (Array1 float) :=
  (flts <- lift (comprehension (py_float float_of_string) array) ;;
   let n := len flts in
   array <- TColStd_Array1OfReal 1 n ;;
   lift (for_each (enumerate flts 1)
                  (fun '(i, x) array => SetValue i x array) array))%kernel.

Definition to_tcolstd_array1_integer (array : list pyobj) : M (Array1 Z) :=
  (ints <- lift (comprehension (py_int int_of_string) array) ;;
   let n := len ints in
   array <- TColStd_Array1OfInteger 1 n ;;
   lift (for_each (enumerate ints 1)
                  (fun '(i, x) array => SetValue_integer i x array) array))%kernel.

(** [np_array(pnts, dtype=float)]: nested sequences become the axes, every
    leaf is converted to a float ([None] becomes nan), rows of unequal shape
    are a ValueError. *)
Fixpoint np_array (v : pyobj) : result ndarray :=
  match v with
  | PyList items | PyTuple items =>
      subs <- (fix each (l : list pyobj) : result (list ndarray) :=
                 match l with
                 | [] => Ok []
                 | x :: l' => a <- np_array x ;; r <- each l' ;; Ok (a :: r)
                 end) items ;;
      match subs with
      | [] => Ok (NdArray [])
      | a :: _ =>
          if forallb (fun b => bool_decide (shape b = shape a)) subs
          then Ok (NdArray subs)
          else Raise ValueError
      end
  | PyNone => Ok (NdScalar nan)
  | PyInt _ | PyFloat _ | PyStr _ =>
      x <- py_float float_of_string v ;; Ok (NdScalar x)
  | Py_gp_Pnt _ | Py_gp_Pnt2d _ | Py_TopoDS_Shape _ => Raise TypeError
  end.

Definition to_tcolgp_array2_pnt (pnts : pyobj) : M (Array2 gp_Pnt) :=
  (pnts <- lift (np_array pnts) ;;
   nm <- lift (shape2 pnts) ;;
   let '(n, m) := nm in
   gp_pnts <- lift (for_each (range n)
                      (fun i gp_pnts =>
                         (row <- for_each (range m)
                                   (fun j row =>
                                      (x <- item2 pnts i j ;;
                                       gp <- _to_gp_pnt (as_pyobj x) ;;
                                       Ok (row ++ [gp]))%py) [] ;;
                          Ok (gp_pnts ++ [row]))%py) []) ;;
   array <- TColgp_Array2OfPnt 1 n 1 m ;;
   lift (for_each (enumerate gp_pnts 1)
                  (fun '(i, row) array =>
                     for_each (enumerate row 1)
                              (fun '(j, gp) array => SetValue2 i j gp array) array)
                  array))%kernel.

End Conversions.

(** *** Vocabulary of the properties *)

(** The point an element contributes to the output of a skipping loop:
    the point it coerces to, nothing when the helper answers [None]. *)
Definition kept {P : Type} (coerce : pyobj -> result (option P)) (p : pyobj) : option P :=
  match coerce p with
  | Ok (Some q) => Some q
  | _ => None
  end.

(** The elements the helper turns down: neither a kernel point nor an
    array-like of the right length. *)
Definition rejected {P : Type} (coerce : pyobj -> result (option P)) (p : pyobj) : bool :=
  match coerce p with
  | Ok None => true
  | _ => false
  end.

(** An element on which the helper returns, with a point or with [None]. *)
Definition returns {P : Type} (coerce : pyobj -> result (option P)) (p : pyobj) : Prop :=
  exists o, coerce p = Ok o.

(** An element that is coercible to a point. *)
Definition coercible {P : Type} (coerce : pyobj -> result (option P)) (p : pyobj) : Prop :=
  exists q, coerce p = Ok (Some q).

Definition coords (q : gp_Pnt) : list float := [Pnt_X q; Pnt_Y q; Pnt_Z q].

(** The coordinates a host point is given by: those of a kernel point, or
    the three numbers of a sequence, an int standing for the float of the
    same value. *)
Definition number (x : pyobj) : option float :=
  match x with
  | PyFloat v => Some v
  | PyInt z => Some (float_of_Z z)
  | _ => None
  end.

Definition host_coords (p : pyobj) : option (list float) :=
  match p with
  | Py_gp_Pnt q => Some (coords q)
  | PyList [a; b; c] | PyTuple [a; b; c] =>
      match number a, number b, number c with
      | Some x, Some y, Some z => Some [x; y; z]
      | _, _, _ => None
      end
  | _ => None
  end.

(** Sample inputs: a sequence of points with two elements the helper turns
    down, a sequence of points only, a 1 by 1 grid whose entry has two
    coordinates, and a scalar sequence with a text in it. *)
Definition sample_mixed : list pyobj :=
  [PyList [PyFloat 1; PyFloat 2; PyInt 3]; PyNone;
   PyTuple [PyInt 1; PyInt 2]; Py_gp_Pnt origin].
Definition sample_points : list pyobj :=
  [PyList [PyFloat 1; PyFloat 2; PyInt 3]; Py_gp_Pnt origin;
   PyTuple [PyFloat 0.5; PyFloat 0.25; PyFloat 4]].
Definition sample_grid : pyobj :=
  PyList [PyList [PyTuple [PyFloat 1; PyFloat 2]]].
Definition sample_scalars : list pyobj :=
  [PyInt 1; PyFloat 2.5; PyStr "abc"].
Definition no_number : string -> option float := fun _ => None.
Definition no_integer : string -> option Z := fun _ => None.

(** *** The remaining one-dimensional conversions *)

(** [zeros(n, dtype=int)] *)
Definition zeros_int (n : Z) : result (list Z) :=
  if n <? 0 then Raise ValueError else Ok (replicate (Z.to_nat n) 0).

Definition to_np_from_tcolstd_array1_real (tcol_array : Array1 float)
    : result (list float) :=
  let n := Length tcol_array in
  array <- zeros n ;;
  for_each (range n)
           (fun i array =>
              x <- Value (i + 1) tcol_array ;;
              setitem i x array) array.

Definition to_np_from_tcolstd_array1_integer (tcol_array : Array1 Z)
    : result (list Z) :=
  let n := Length tcol_array in
  array <- zeros_int n ;;
  for_each (range n)
           (fun i array =>
              x <- Value (i + 1) tcol_array ;;
              setitem i x array) array.

(** A kernel array with lower bound 1 whose cells fill its bounds: what the
    conversions to kernel arrays build. *)
Definition from_one {A : Type} (a : Array1 A) : Prop :=
  Lower a = 1 /\ Upper a = len (cells a).

(** The values a Standard_Integer holds. *)
Definition fits_integer (z : Z) : Prop := - 2 ^ 31 <= z < 2 ^ 31.

(** The host objects the bindings take for a double. *)
Definition is_number (x : pyobj) : bool :=
  match x with
  | PyFloat _ => true
  | PyInt z => negb (is_infinity (float_of_Z z))
  | _ => false
  end.

(** A sequence of three items one of which is no number. *)
Definition bad_triple (p : pyobj) : bool :=
  is_array_like p && (len (items_of p) =? 3) && negb (forallb is_number (items_of p)).

(** A sequence of two items one of which is no number. *)
Definition bad_pair (p : pyobj) : bool :=
  is_array_like p && (len (items_of p) =? 2) && negb (forallb is_number (items_of p)).

(** *** The remaining two-dimensional conversions *)

(** [ColLength()] is the number of rows, [RowLength()] the number of
    columns. *)
Definition ColLength {A : Type} (a : Array2 A) : Z := UpperRow a - LowerRow a + 1.
Definition RowLength {A : Type} (a : Array2 A) : Z := UpperCol a - LowerCol a + 1.

Definition Value2 {A : Type} (i j : Z) (a : Array2 A) : result A :=
  if (LowerRow a <=? i) && (i <=? UpperRow a) &&
     (LowerCol a <=? j) && (j <=? UpperCol a)
  then match rows a !! Z.to_nat (i - LowerRow a) with
       | Some row =>
           match row !! Z.to_nat (j - LowerCol a) with
           | Some v => Ok v
           | None => Raise Standard_OutOfRange
           end
       | None => Raise Standard_OutOfRange
       end
  else Raise Standard_OutOfRange.

(** [TColStd_Array2OfReal(r1, r2, c1, c2)]: refused with
    Standard_RangeError, no array created, when the row or the column range
    is empty. *)
Definition TColStd_Array2OfReal (r1 r2 c1 c2 : Z) : M (Array2 float) :=
  fun n =>
    if (r2 <? r1) || (c2 <? c1) then (Raise Standard_RangeError, n)
    else (Ok (mk_Array2 r1 r2 c1 c2
                (replicate (Z.to_nat (r2 - r1 + 1))
                           (replicate (Z.to_nat (c2 - c1 + 1)) 0%float))),
          S n).

(** [TColStd_Array2OfReal.SetValue(i, j, x)] *)
Definition SetValue2_real (i j : Z) (x : float) (a : Array2 float)
    : result (Array2 float) :=
  if (LowerRow a <=? i) && (i <=? UpperRow a) &&
     (LowerCol a <=? j) && (j <=? UpperCol a)
  then Ok (mk_Array2 (LowerRow a) (UpperRow a) (LowerCol a) (UpperCol a)
             (alter (fun row => <[Z.to_nat (j - LowerCol a) := x]> row)
                    (Z.to_nat (i - LowerRow a)) (rows a)))
  else Raise Standard_OutOfRange.

(** [range(start, stop)] *)
Definition range_from (start stop : Z) : list Z :=
  map (fun k => start + Z.of_nat k) (seq 0 (Z.to_nat (stop - start))).

(** [n, m = flts.shape] *)
Definition shape_pair (a : ndarray) : result (Z * Z) :=
  match shape a with
  | [n; m] => Ok (Z.of_nat n, Z.of_nat m)
  | _ => Raise ValueError
  end.

(** [float(x)] of an array item: a scalar, or an array of one item. *)
Fixpoint float_of_item (x : ndarray) : result float :=
  match x with
  | NdScalar v => Ok v
  | NdArray [y] => float_of_item y
  | NdArray _ => Raise TypeError
  end.

(** [zeros((n, m, 3))] *)
Definition zeros3 (n m k : Z) : result (list (list (list float))) :=
  (plane <- zeros2 m k ;;
   if n <? 0 then Raise ValueError else Ok (replicate (Z.to_nat n) plane))%py.

(** [array[i, j] = v] with [0 <= i] and [0 <= j] *)
Definition setitem2 {A : Type} (i j : Z) (v : A) (array : list (list A))
    : result (list (list A)) :=
  match array !! Z.to_nat i with
  | Some row =>
      if (0 <=? i) && (0 <=? j) && (j <? len row)
      then Ok (<[Z.to_nat i := <[Z.to_nat j := v]> row]> array)
      else Raise IndexError
  | None => Raise IndexError
  end.

Definition to_np_from_tcolgp_array2_pnt (tcol_array : Array2 gp_Pnt)
    : result (list (list (list float))) :=
  let n := ColLength tcol_array in
  let m := RowLength tcol_array in
  array <- zeros3 n m 3 ;;
  for_each (range n)
           (fun i array =>
              for_each (range m)
                       (fun j array =>
                          p <- Value2 (i + 1) (j + 1) tcol_array ;;
                          setitem2 i j [Pnt_X p; Pnt_Y p; Pnt_Z p] array) array)
           array.

Definition to_np_from_tcolstd_array2_real (tcol_array : Array2 float)
    : result (list (list float)) :=
  let n := ColLength tcol_array in
  let m := RowLength tcol_array in
  array <- zeros2 n m ;;
  for_each (range n)
           (fun i array =>
              for_each (range m)
                       (fun j array =>
                          x <- Value2 (i + 1) (j + 1) tcol_array ;;
                          setitem2 i j x array) array)
           array.

Section Conversions2.

Variable float_of_string : string -> option float.

Definition to_tcolstd_array2_real (array : pyobj) : M (Array2 float) :=
  (flts <- lift (np_array float_of_string array) ;;
   nm <- lift (shape_pair flts) ;;
   let '(n, m) := nm in
   array <- TColStd_Array2OfReal 1 n 1 m ;;
   lift (for_each (range_from 1 (n + 1))
                  (fun i array =>
                     for_each (range_from 1 (m + 1))
                              (fun j array =>
                                 (item <- item2 flts (i - 1) (j - 1) ;;
                                  x <- float_of_item item ;;
                                  SetValue2_real i j x array)%py) array)
                  array))%kernel.

End Conversions2.

(** A kernel array with lower bounds 1 whose rows fill its bounds. *)
Definition from_one2 {A : Type} (a : Array2 A) : Prop :=
  LowerRow a = 1 /\ LowerCol a = 1 /\
  UpperRow a = len (rows a) /\ 0 <= UpperCol a /\
  Forall (fun row => len row = UpperCol a) (rows a).

(** A sequence under filling: the first [k] places hold their final
    values, the others their initial ones. *)
Definition filled_to {A : Type} (k : nat) (final initial : list A) : list A :=
  take k final ++ drop k initial.

(** A grid: at least one row, all rows of length [m]. *)
Definition rectangular {A : Type} (m : nat) (g : list (list A)) : Prop :=
  g <> [] /\ Forall (fun row => length row = m) g.

(** The host object of a grid of floats, and of a grid of points given by
    their coordinates. *)
Definition real_grid (g : list (list float)) : pyobj :=
  PyList (map (fun row => PyList (map PyFloat row)) g).

Definition triple (q : gp_Pnt) : pyobj :=
  PyTuple [PyFloat (Pnt_X q); PyFloat (Pnt_Y q); PyFloat (Pnt_Z q)].

Definition point_grid (g : list (list gp_Pnt)) : pyobj :=
  PyList (map (fun row => PyList (map triple row)) g).

(** The arrays [np_array] makes of these grids. *)
Definition nd_row (row : list float) : ndarray := NdArray (map NdScalar row).
Definition nd_grid (g : list (list float)) : ndarray := NdArray (map nd_row g).

Definition nd_point (q : gp_Pnt) : ndarray :=
  NdArray [NdScalar (Pnt_X q); NdScalar (Pnt_Y q); NdScalar (Pnt_Z q)].
Definition nd_point_row (row : list gp_Pnt) : ndarray := NdArray (map nd_point row).
Definition nd_point_grid (g : list (list gp_Pnt)) : ndarray :=
  NdArray (map nd_point_row g).

(** More sample inputs: scalar sequences that convert, a grid of floats
    and a grid of points, both 2 by 3. *)
Definition sample_reals : list pyobj := [PyInt 1; PyFloat 2.5; PyInt (-3)].
Definition sample_integers : list pyobj := [PyInt 1; PyFloat 2.5; PyInt (-3)].
Definition sample_pairs : list pyobj :=
  [PyList [PyFloat 1; PyInt 2]; PyNone; PyTuple [PyInt 1; PyInt 2; PyInt 3];
   Py_gp_Pnt2d origin2d].
Definition sample_real_grid : list (list float) :=
  [[1; 2; 3]; [4; 5; 6]]%float.
Definition sample_point_grid : list (list gp_Pnt) :=
  [[origin; mk_gp_Pnt 1 2 3; origin]; [mk_gp_Pnt 4 5 6; origin; origin]].

End Tcol.

(** * Properties of the Boolean-operation facade *)

Section BopFacts.
Import Bop.

Variable K : Kernel.

Lemma init_without_operands shape1 shape2 parallel fuzzy_val bop :
  is_shape shape1 && is_shape shape2 = false ->
  BopAlgo__init__ shape1 shape2 parallel fuzzy_val bop
  = Ok (mk_BopAlgo (mk_engine bop [] (configuration parallel fuzzy_val))).
Proof.
  intros Hbad. unfold BopAlgo__init__, configuration. rewrite Hbad. simpl.
  destruct parallel, fuzzy_val; reflexivity.
Qed.

Lemma init_with_operands shape1 shape2 parallel fuzzy_val bop :
  bop <> GEOMAlgo_Splitter ->
  is_shape shape1 = true -> is_shape shape2 = true ->
  BopAlgo__init__ shape1 shape2 parallel fuzzy_val bop
  = Ok (mk_BopAlgo (mk_engine bop [shape1; shape2] (configuration parallel fuzzy_val))).
Proof.
  intros Hbop H1 H2. unfold BopAlgo__init__, configuration. rewrite H1, H2. simpl.
  destruct bop; try congruence; destruct parallel, fuzzy_val; reflexivity.
Qed.

Lemma configuration_no_execution parallel fuzzy_val :
  existsb is_execution (configuration parallel fuzzy_val) = false.
Proof. destruct parallel, fuzzy_val; reflexivity. Qed.

Lemma invoke_answered c e :
  responds K (e_class e) c = true -> invoke K c e = Ok (record c e).
Proof. intros H. unfold invoke. rewrite H. reflexivity. Qed.

Lemma invoke_unanswered c e :
  responds K (e_class e) c = false -> invoke K c e = Raise AttributeError.
Proof. intros H. unfold invoke. rewrite H. reflexivity. Qed.

Lemma is_splitter_class self :
  _is_splitter self = true -> e_class (_bop self) = GEOMAlgo_Splitter.
Proof. unfold _is_splitter. destruct (e_class (_bop self)); congruence. Qed.

Lemma SplitShapes_valid shape1 shape2 parallel fuzzy_val :
  is_shape shape1 = true -> is_shape shape2 = true -> splitter_api K ->
  SplitShapes K shape1 shape2 parallel fuzzy_val
  = Ok (mk_BopAlgo (mk_engine GEOMAlgo_Splitter []
          (configuration parallel fuzzy_val
           ++ [AddArgument shape1; AddArgument shape2; Perform]))).
Proof.
  intros H1 H2 (Harg & _ & Hperf). unfold SplitShapes.
  rewrite init_without_operands by reflexivity. simpl. rewrite H1, H2. simpl.
  repeat (rewrite invoke_answered by (simpl; auto); simpl).
  unfold record. simpl. rewrite <- !app_assoc. reflexivity.
Qed.

(** C1: on two valid operands [SplitShapes] builds the splitter with no
    operand and runs it during construction, but it hands BOTH shapes to
    [AddArgument]: the engine never receives an [AddTool] call, so [shape2]
    is a second argument and not the one tool. *)
Theorem SplitShapes_adds_both_shapes_as_arguments shape1 shape2 parallel fuzzy_val :
  is_shape shape1 = true -> is_shape shape2 = true -> splitter_api K ->
  exists self,
    SplitShapes K shape1 shape2 parallel fuzzy_val = Ok self /\
    e_class (_bop self) = GEOMAlgo_Splitter /\
    e_operands (_bop self) = [] /\
    e_calls (_bop self)
    = configuration parallel fuzzy_val
      ++ [AddArgument shape1; AddArgument shape2; Perform] /\
    forall s, ~ In (AddTool s) (e_calls (_bop self)).
Proof.
  intros H1 H2 Hapi. eexists. split; [apply SplitShapes_valid; assumption|].
  simpl. repeat split.
  intros s Hin. apply in_app_or in Hin as [Hin|Hin].
  - destruct parallel, fuzzy_val; simpl in Hin; intuition discriminate.
  - simpl in Hin. intuition discriminate.
Qed.

(** C2 (as amended): for Fuse, Cut, Common and Intersect the facade hands two
    valid operands to the engine's two-operand constructor and itself issues
    no execution call; [is_done] right after construction is the [IsDone]
    flag of that engine as the constructor left it, and an explicit
    [build()] adds exactly one [Build] call. *)
Theorem construction_with_operands_issues_no_Build bop shape1 shape2 parallel fuzzy_val :
  bop <> GEOMAlgo_Splitter ->
  is_shape shape1 = true -> is_shape shape2 = true ->
  exists self,
    BopAlgo__init__ shape1 shape2 parallel fuzzy_val bop = Ok self /\
    e_operands (_bop self) = [shape1; shape2] /\
    e_calls (_bop self) = configuration parallel fuzzy_val /\
    existsb is_execution (e_calls (_bop self)) = false /\
    is_done K self = IsDone K (_bop self) /\
    (responds K bop Build = true ->
     exists self',
       build K self = Ok self' /\
       e_calls (_bop self') = configuration parallel fuzzy_val ++ [Build] /\
       is_done K self' = IsDone K (_bop self')).
Proof.
  intros Hbop H1 H2.
  exists (mk_BopAlgo (mk_engine bop [shape1; shape2] (configuration parallel fuzzy_val))).
  split; [apply init_with_operands; assumption|].
  assert (Hns : forall e, e_class e = bop -> _is_splitter (mk_BopAlgo e) = false).
  { intros e <-. unfold _is_splitter. simpl. destruct (e_class e); congruence. }
  simpl. repeat split.
  - apply configuration_no_execution.
  - unfold is_done. rewrite Hns; reflexivity.
  - intros Hb.
    exists (mk_BopAlgo (record Build (mk_engine bop [shape1; shape2]
                                       (configuration parallel fuzzy_val)))).
    unfold build, is_done. rewrite !Hns by reflexivity.
    rewrite invoke_answered by exact Hb. repeat split.
Qed.

(** C3 (as amended): a [SplitShapes] built on two valid operands has run
    [Perform] as the last step of its construction, with no [build()] call,
    and [is_done] right after construction is the engine's error status of
    that run compared with 0: true exactly when the engine reports no
    error. *)
Theorem SplitShapes_is_done_after_construction shape1 shape2 parallel fuzzy_val :
  is_shape shape1 = true -> is_shape shape2 = true -> splitter_api K ->
  exists self,
    SplitShapes K shape1 shape2 parallel fuzzy_val = Ok self /\
    last (e_calls (_bop self)) = Some Perform /\
    is_done K self = (ErrorStatus K (_bop self) =? 0) /\
    (is_done K self = true <-> ErrorStatus K (_bop self) = 0).
Proof.
  intros H1 H2 Hapi. eexists. split; [apply SplitShapes_valid; assumption|].
  assert (Hlast : forall cs : list call,
             last (cs ++ [AddArgument shape1; AddArgument shape2; Perform]) = Some Perform).
  { intros cs. change [AddArgument shape1; AddArgument shape2; Perform]
      with ([AddArgument shape1; AddArgument shape2] ++ [Perform]).
    rewrite app_assoc. apply last_snoc. }
  simpl. split; [apply Hlast|].
  unfold is_done, _is_splitter. simpl. split; [reflexivity|]. apply Z.eqb_eq.
Qed.

(** C5: on a splitter, [set_args] and [set_tools] given a non-empty sequence
    add its first element only, by one [AddArgument] (one [AddTool]) call;
    the other elements never reach the engine. *)
Theorem splitter_set_args_adds_first_only self shape rest :
  _is_splitter self = true -> splitter_api K ->
  set_args K self (shape :: rest)
  = Ok (mk_BopAlgo (record (AddArgument shape) (_bop self))) /\
  set_tools K self (shape :: rest)
  = Ok (mk_BopAlgo (record (AddTool shape) (_bop self))).
Proof.
  intros Hs (Harg & Htool & _). unfold set_args, set_tools. rewrite Hs.
  apply is_splitter_class in Hs.
  rewrite !invoke_answered by (rewrite Hs; auto). split; reflexivity.
Qed.

(** C8: on a splitter [refine_edges] returns normally with the instance
    unchanged and one RuntimeWarning emitted, [section_edges] returns the
    empty list with one RuntimeWarning emitted, and [fuse_edges] is false. *)
Theorem splitter_unsupported_queries_warn self stream :
  _is_splitter self = true ->
  refine_edges K self stream
  = Ok (self, stream ++ [("Refine edges not implemented for GEOMAlgo_Splitter."%string,
                          RuntimeWarning)]) /\
  section_edges K self stream
  = ([], stream ++ [("Section edges not implemented for GEOMAlgo_Splitter. Returning empty list."%string,
                     RuntimeWarning)]) /\
  fuse_edges K self = false.
Proof.
  intros Hs. unfold refine_edges, section_edges, fuse_edges, warn.
  rewrite Hs. repeat split.
Qed.

(** C9: when at least one operand is not a valid shape, construction returns
    normally with an engine built from no operands, for every engine class
    and for [SplitShapes]; the parallel flag and the fuzzy tolerance are
    passed on exactly as on the two-operand path. *)
Theorem construction_falls_back_to_no_operands shape1 shape2 parallel fuzzy_val bop :
  is_shape shape1 && is_shape shape2 = false ->
  BopAlgo__init__ shape1 shape2 parallel fuzzy_val bop
  = Ok (mk_BopAlgo (mk_engine bop [] (configuration parallel fuzzy_val))) /\
  SplitShapes K shape1 shape2 parallel fuzzy_val
  = Ok (mk_BopAlgo (mk_engine GEOMAlgo_Splitter [] (configuration parallel fuzzy_val))) /\
  (In (SetRunParallel true) (configuration parallel fuzzy_val) <-> parallel = true) /\
  (forall v, In (SetFuzzyValue v) (configuration parallel fuzzy_val) <-> fuzzy_val = Some v).
Proof.
  intros Hbad. split; [apply init_without_operands; exact Hbad|].
  split.
  { unfold SplitShapes. rewrite init_without_operands by reflexivity.
    simpl. rewrite Hbad. reflexivity. }
  unfold configuration. split.
  - destruct parallel, fuzzy_val; simpl; intuition discriminate.
  - intros v. destruct parallel, fuzzy_val as [w|]; simpl;
      intuition (try discriminate; try congruence).
Qed.

Lemma record_changes_engine c e : record c e <> e.
Proof.
  intros H. apply (f_equal e_calls) in H. simpl in H.
  apply (f_equal (@length call)) in H. rewrite length_app in H. simpl in H. lia.
Qed.

Lemma invoke_is_no_noop c self :
  (e <- invoke K c (_bop self) ;; Ok (mk_BopAlgo e)) <> Ok self.
Proof.
  unfold invoke. destruct (responds K (e_class (_bop self)) c); simpl; [|discriminate].
  intros [= H]. destruct self as [e]. simpl in H. injection H as H.
  exact (record_changes_engine c e H).
Qed.

(** C10: on a splitter an empty sequence never enters the loop that holds
    the early return: [set_args] calls [SetArguments] and [set_tools] calls
    [SetTools] on the splitter engine, so neither is a no-op, and with a
    splitter that lacks the two methods the calls raise. *)
Theorem splitter_set_args_empty_falls_through self :
  _is_splitter self = true ->
  set_args K self [] = (e <- invoke K (SetArguments []) (_bop self) ;; Ok (mk_BopAlgo e)) /\
  set_tools K self [] = (e <- invoke K (SetTools []) (_bop self) ;; Ok (mk_BopAlgo e)) /\
  set_args K self [] <> Ok self /\
  set_tools K self [] <> Ok self /\
  (responds K GEOMAlgo_Splitter (SetArguments []) = false ->
   set_args K self [] = Raise AttributeError) /\
  (responds K GEOMAlgo_Splitter (SetTools []) = false ->
   set_tools K self [] = Raise AttributeError).
Proof.
  intros Hs. unfold set_args, set_tools, to_toptools_listofshape. rewrite Hs.
  apply is_splitter_class in Hs.
  split; [reflexivity|]. split; [reflexivity|].
  split; [apply invoke_is_no_noop|]. split; [apply invoke_is_no_noop|].
  split; intros H; rewrite invoke_unanswered by (rewrite Hs; exact H); reflexivity.
Qed.

End BopFacts.

(** ** The facade on the engines of the class doctests *)

Section BopInstances.
Import Bop.

Lemma doctest_kernel_splitter_api : splitter_api doctest_kernel.
Proof. repeat split. Qed.

Lemma SplitShapes_adds_both_shapes_as_arguments_witness :
  exists self,
    SplitShapes doctest_kernel e1 e2 true None = Ok self /\
    e_class (_bop self) = GEOMAlgo_Splitter /\
    e_operands (_bop self) = [] /\
    e_calls (_bop self)
    = configuration true None ++ [AddArgument e1; AddArgument e2; Perform] /\
    forall s, ~ In (AddTool s) (e_calls (_bop self)).
Proof.
  apply (SplitShapes_adds_both_shapes_as_arguments doctest_kernel e1 e2 true None);
    [reflexivity | reflexivity | repeat split].
Defined.

(** C2, as stated, fails: with engines that behave as the class doctests
    assert, a [FuseShapes] built on two valid shapes is done before any
    [build()] call. *)
Lemma construction_with_operands_can_be_done :
  ~ (forall (K : Kernel) (bop : bop_class) (shape1 shape2 : pyobj)
            (parallel : bool) (fuzzy_val : option float) (self : BopAlgo),
       bop <> GEOMAlgo_Splitter ->
       is_shape shape1 = true -> is_shape shape2 = true ->
       BopAlgo__init__ shape1 shape2 parallel fuzzy_val bop = Ok self ->
       is_done K self = false).
Proof.
  intros Hclaim.
  specialize (Hclaim doctest_kernel BRepAlgoAPI_Fuse e1 e2 true None
                (mk_BopAlgo (mk_engine BRepAlgoAPI_Fuse [e1; e2] [SetRunParallel true]))).
  assert (Hdone : is_done doctest_kernel
            (mk_BopAlgo (mk_engine BRepAlgoAPI_Fuse [e1; e2] [SetRunParallel true]))
          = true) by reflexivity.
  rewrite Hclaim in Hdone; [discriminate | discriminate | reflexivity..].
Qed.

Lemma construction_with_operands_issues_no_Build_witness :
  exists self,
    BopAlgo__init__ e1 e2 true None BRepAlgoAPI_Fuse = Ok self /\
    e_operands (_bop self) = [e1; e2] /\
    e_calls (_bop self) = configuration true None /\
    existsb is_execution (e_calls (_bop self)) = false /\
    is_done doctest_kernel self = IsDone doctest_kernel (_bop self) /\
    (responds doctest_kernel BRepAlgoAPI_Fuse Build = true ->
     exists self',
       build doctest_kernel self = Ok self' /\
       e_calls (_bop self') = configuration true None ++ [Build] /\
       is_done doctest_kernel self' = IsDone doctest_kernel (_bop self')).
Proof.
  apply (construction_with_operands_issues_no_Build
           doctest_kernel BRepAlgoAPI_Fuse e1 e2 true None);
    [discriminate | reflexivity | reflexivity].
Defined.

(** C3, as stated, fails: when the splitter does not complete the
    operation, a [SplitShapes] built on two valid shapes has run [Perform]
    and is not done. *)
Lemma SplitShapes_can_fail_to_be_done :
  ~ (forall (K : Kernel) (shape1 shape2 : pyobj) (parallel : bool)
            (fuzzy_val : option float) (self : BopAlgo),
       is_shape shape1 = true -> is_shape shape2 = true -> splitter_api K ->
       SplitShapes K shape1 shape2 parallel fuzzy_val = Ok self ->
       is_done K self = true).
Proof.
  intros Hclaim.
  specialize (Hclaim failing_kernel e1 e2 true None
                (mk_BopAlgo (mk_engine GEOMAlgo_Splitter []
                   [SetRunParallel true; AddArgument e1; AddArgument e2; Perform]))).
  assert (Hnot : is_done failing_kernel
            (mk_BopAlgo (mk_engine GEOMAlgo_Splitter []
               [SetRunParallel true; AddArgument e1; AddArgument e2; Perform]))
          = false) by reflexivity.
  rewrite Hclaim in Hnot; [discriminate | reflexivity | reflexivity | | reflexivity].
  repeat split.
Qed.

Lemma SplitShapes_is_done_after_construction_witness :
  exists self,
    SplitShapes doctest_kernel e1 e2 true None = Ok self /\
    last (e_calls (_bop self)) = Some Perform /\
    is_done doctest_kernel self = (ErrorStatus doctest_kernel (_bop self) =? 0) /\
    (is_done doctest_kernel self = true <-> ErrorStatus doctest_kernel (_bop self) = 0).
Proof.
  apply (SplitShapes_is_done_after_construction doctest_kernel e1 e2 true None);
    [reflexivity | reflexivity | repeat split].
Defined.

Lemma splitter_set_args_adds_first_only_witness :
  set_args doctest_kernel empty_splitter [e1; e2]
  = Ok (mk_BopAlgo (record (AddArgument e1) (_bop empty_splitter))) /\
  set_tools doctest_kernel empty_splitter [e1; e2]
  = Ok (mk_BopAlgo (record (AddTool e1) (_bop empty_splitter))).
Proof.
  apply (splitter_set_args_adds_first_only doctest_kernel empty_splitter e1 [e2]);
    [reflexivity | repeat split].
Defined.

Lemma splitter_unsupported_queries_warn_witness :
  refine_edges doctest_kernel empty_splitter []
  = Ok (empty_splitter,
        [] ++ [("Refine edges not implemented for GEOMAlgo_Splitter."%string,
                RuntimeWarning)]) /\
  section_edges doctest_kernel empty_splitter []
  = ([], [] ++ [("Section edges not implemented for GEOMAlgo_Splitter. Returning empty list."%string,
                 RuntimeWarning)]) /\
  fuse_edges doctest_kernel empty_splitter = false.
Proof.
  apply (splitter_unsupported_queries_warn doctest_kernel empty_splitter []).
  reflexivity.
Defined.

Lemma construction_falls_back_to_no_operands_witness :
  BopAlgo__init__ e1 PyNone true None BRepAlgoAPI_Cut
  = Ok (mk_BopAlgo (mk_engine BRepAlgoAPI_Cut [] (configuration true None))) /\
  SplitShapes doctest_kernel e1 PyNone true None
  = Ok (mk_BopAlgo (mk_engine GEOMAlgo_Splitter [] (configuration true None))) /\
  (In (SetRunParallel true) (configuration true None) <-> true = true) /\
  (forall v, In (SetFuzzyValue v) (configuration true None) <-> None = Some v).
Proof.
  apply (construction_falls_back_to_no_operands
           doctest_kernel e1 PyNone true None BRepAlgoAPI_Cut).
  reflexivity.
Defined.

Lemma splitter_set_args_empty_falls_through_witness :
  set_args doctest_kernel empty_splitter []
  = (e <- invoke doctest_kernel (SetArguments []) (_bop empty_splitter) ;;
     Ok (mk_BopAlgo e)) /\
  set_tools doctest_kernel empty_splitter []
  = (e <- invoke doctest_kernel (SetTools []) (_bop empty_splitter) ;;
     Ok (mk_BopAlgo e)) /\
  set_args doctest_kernel empty_splitter [] <> Ok empty_splitter /\
  set_tools doctest_kernel empty_splitter [] <> Ok empty_splitter /\
  (responds doctest_kernel GEOMAlgo_Splitter (SetArguments []) = false ->
   set_args doctest_kernel empty_splitter [] = Raise AttributeError) /\
  (responds doctest_kernel GEOMAlgo_Splitter (SetTools []) = false ->
   set_tools doctest_kernel empty_splitter [] = Raise AttributeError).
Proof.
  apply (splitter_set_args_empty_falls_through doctest_kernel empty_splitter).
  reflexivity.
Defined.

End BopInstances.

(** * Properties of the array marshalling layer *)

Section TcolFacts.
Import Tcol.

Lemma for_each_preserves {A S : Type} (P : S -> Prop) (body : A -> S -> result S) l :
  (forall x s s', body x s = Ok s' -> P s -> P s') ->
  forall s s', for_each l body s = Ok s' -> P s -> P s'.
Proof.
  intros Hbody. induction l as [|x l IH]; intros s s' Hrun Hs; simpl in Hrun.
  - congruence.
  - destruct (body x s) as [s1|e] eqn:Hx; simpl in Hrun; [|discriminate].
    eapply IH; eauto.
Qed.

(** The skipping loop keeps, in order, what the helper coerces. *)
Lemma gather_ok {P : Type} (coerce : pyobj -> result (option P)) pnts :
  Forall (returns coerce) pnts ->
  forall acc,
    for_each pnts
      (fun gp gp_pnts =>
         gp <- coerce gp ;;
         match gp with
         | None => Ok gp_pnts
         | Some gp => Ok (gp_pnts ++ [gp])
         end) acc
    = Ok (acc ++ omap (kept coerce) pnts).
Proof.
  induction 1 as [|p pnts [o Hp] _ IH]; intros acc; simpl.
  - rewrite app_nil_r. reflexivity.
  - unfold kept at 1. rewrite Hp. simpl. destruct o as [q|]; simpl; rewrite IH.
    + rewrite <- app_assoc. reflexivity.
    + reflexivity.
Qed.

Lemma gather_raises {P : Type} (coerce : pyobj -> result (option P)) pnts :
  Exists (fun p => exists e, coerce p = Raise e) pnts ->
  forall acc, exists e,
    for_each pnts
      (fun gp gp_pnts =>
         gp <- coerce gp ;;
         match gp with
         | None => Ok gp_pnts
         | Some gp => Ok (gp_pnts ++ [gp])
         end) acc
    = Raise e.
Proof.
  induction 1 as [p pnts [e Hp]|p pnts _ IH]; intros acc; simpl.
  - rewrite Hp. eauto.
  - destruct (coerce p) as [[q|]|e]; simpl; eauto.
Qed.

Lemma length_kept {P : Type} (coerce : pyobj -> result (option P)) pnts :
  Forall (returns coerce) pnts ->
  (length (omap (kept coerce) pnts)
   + length (List.filter (rejected coerce) pnts) = length pnts)%nat.
Proof.
  induction 1 as [|p pnts [o Hp] _ IH]; simpl; [reflexivity|].
  unfold kept at 1, rejected at 1. rewrite Hp.
  destruct o; simpl; [|rewrite Nat.add_succ_r]; f_equal; exact IH.
Qed.

(** The filling loop writes the collected elements to the cells
    [Lower + length pre ..], one index after the other. *)
Lemma fill_ok {A : Type} (xs : list A) :
  forall lo up pre old post,
    length old = length xs ->
    Z.of_nat (length (pre ++ old ++ post)) = up - lo + 1 ->
    for_each (enumerate xs (lo + Z.of_nat (length pre)))
             (fun '(i, x) a => SetValue i x a)
             (mk_Array1 lo up (pre ++ old ++ post))
    = Ok (mk_Array1 lo up (pre ++ xs ++ post)).
Proof.
  induction xs as [|x xs IH]; intros lo up pre old post Hlen Hsize.
  - destruct old; [reflexivity|discriminate].
  - destruct old as [|o old]; [discriminate|]. simpl in Hlen.
    simpl. unfold SetValue at 1. simpl.
    rewrite !length_app in Hsize. simpl in Hsize.
    replace ((lo <=? lo + Z.of_nat (length pre)) && (lo + Z.of_nat (length pre) <=? up))
      with true by (symmetry; apply andb_true_iff; split; apply Z.leb_le; lia).
    simpl.
    replace (Z.to_nat (lo + Z.of_nat (length pre) - lo)) with (length pre + 0)%nat by lia.
    rewrite insert_app_r. simpl.
    specialize (IH lo up (pre ++ [x]) old post).
    replace (lo + Z.of_nat (length pre) + 1)
      with (lo + Z.of_nat (length (pre ++ [x])))
      by (rewrite length_app; simpl; lia).
    rewrite <- !app_assoc in IH. simpl in IH. apply IH; [lia|].
    rewrite length_app. simpl. rewrite length_app. lia.
Qed.

Lemma Array1_filled {A : Type} (dflt : A) (xs : list A) n0 :
  xs <> [] ->
  (array <- Array1_new dflt 1 (len xs) ;;
   lift (for_each (enumerate xs 1) (fun '(i, x) a => SetValue i x a) array))%kernel n0
  = (Ok (mk_Array1 1 (len xs) xs), S n0).
Proof.
  intros Hne. unfold mbind, Array1_new, lift, len.
  replace (Z.of_nat (length xs) <? 1) with false
    by (symmetry; apply Z.ltb_ge; destruct xs; [congruence | simpl; lia]).
  replace (Z.to_nat (Z.of_nat (length xs) - 1 + 1)) with (length xs) by lia.
  pose proof (fill_ok xs 1 (Z.of_nat (length xs)) [] (replicate (length xs) dflt) []) as H.
  assert (E : 1 + Z.of_nat (length (@nil A)) = 1) by reflexivity.
  rewrite E, !app_nil_r in H. simpl in H. rewrite H; [reflexivity| |].
  - apply length_replicate.
  - rewrite length_replicate. lia.
Qed.

(** With nothing to store the constructor is called on the range 1..0 and
    refuses it. *)
Lemma kept_nonempty {P : Type} (coerce : pyobj -> result (option P)) pnts :
  Forall (returns coerce) pnts ->
  (length (List.filter (rejected coerce) pnts) < length pnts)%nat ->
  omap (kept coerce) pnts <> [].
Proof.
  intros Hret Hlt Hnil. pose proof (length_kept _ _ Hret) as Hlen.
  rewrite Hnil in Hlen. simpl in Hlen. lia.
Qed.

Lemma to_tcolgp_array1_pnt_ok pnts n0 :
  Forall (returns _to_gp_pnt) pnts ->
  omap (kept _to_gp_pnt) pnts <> [] ->
  to_tcolgp_array1_pnt pnts n0
  = (Ok (mk_Array1 1 (len (omap (kept _to_gp_pnt) pnts)) (omap (kept _to_gp_pnt) pnts)),
     S n0).
Proof.
  intros Hret Hne. unfold to_tcolgp_array1_pnt.
  unfold mbind at 1. unfold lift at 1. rewrite (gather_ok _ _ Hret). simpl.
  apply Array1_filled, Hne.
Qed.

Lemma to_tcolgp_array1_pnt_refused pnts n0 :
  Forall (returns _to_gp_pnt) pnts ->
  omap (kept _to_gp_pnt) pnts = [] ->
  to_tcolgp_array1_pnt pnts n0 = (Raise Standard_RangeError, n0).
Proof.
  intros Hret Hnil. unfold to_tcolgp_array1_pnt.
  unfold mbind at 1. unfold lift at 1. rewrite (gather_ok _ _ Hret). simpl.
  rewrite Hnil. reflexivity.
Qed.

(** The two sibling loops skip in the same way. *)
Lemma to_tcolgp_harray1_pnt_ok pnts n0 :
  Forall (returns _to_gp_pnt) pnts ->
  omap (kept _to_gp_pnt) pnts <> [] ->
  to_tcolgp_harray1_pnt pnts n0
  = (Ok (mk_Array1 1 (len (omap (kept _to_gp_pnt) pnts)) (omap (kept _to_gp_pnt) pnts)),
     S n0).
Proof. apply to_tcolgp_array1_pnt_ok. Qed.

Lemma to_tcolgp_array1_pnt2d_ok pnts n0 :
  Forall (returns _to_gp_pnt2d) pnts ->
  omap (kept _to_gp_pnt2d) pnts <> [] ->
  to_tcolgp_array1_pnt2d pnts n0
  = (Ok (mk_Array1 1 (len (omap (kept _to_gp_pnt2d) pnts))
                   (omap (kept _to_gp_pnt2d) pnts)),
     S n0).
Proof.
  intros Hret Hne. unfold to_tcolgp_array1_pnt2d.
  unfold mbind at 1. unfold lift at 1. rewrite (gather_ok _ _ Hret). simpl.
  apply Array1_filled, Hne.
Qed.

Lemma kept_coercible {P : Type} (coerce : pyobj -> result (option P)) pnts :
  Forall (coercible coerce) pnts ->
  Forall2 (fun p q => coerce p = Ok (Some q)) pnts (omap (kept coerce) pnts).
Proof.
  induction 1 as [|p pnts [q Hp] _ IH]; simpl; [constructor|].
  unfold kept at 1. rewrite Hp. constructor; assumption.
Qed.

Lemma coercible_returns {P : Type} (coerce : pyobj -> result (option P)) p :
  coercible coerce p -> returns coerce p.
Proof. intros [q Hq]. exists (Some q). exact Hq. Qed.

(** Reading the array back copies cell [i + 1] to row [i]. *)
Lemma read_back_ok (arr : Array1 gp_Pnt) :
  Lower arr = 1 -> Upper arr = len (cells arr) ->
  forall m k pre old,
    length pre = k -> length old = m -> (k + m = length (cells arr))%nat ->
    for_each (map Z.of_nat (seq k m))
      (fun i array =>
         p <- Value (i + 1) arr ;;
         setitem i [Pnt_X p; Pnt_Y p; Pnt_Z p] array)
      (pre ++ old)
    = Ok (pre ++ map coords (drop k (cells arr))).
Proof.
  intros Hlo Hup. induction m as [|m IH]; intros k pre old Hpre Hold Hkm.
  - destruct old; [|discriminate]. simpl.
    rewrite drop_ge by lia. reflexivity.
  - destruct old as [|o old]; [discriminate|]. simpl in Hold. simpl.
    destruct (lookup_lt_is_Some_2 (cells arr) k) as [c Hc]; [lia|].
    unfold Value at 1. rewrite Hlo, Hup. unfold len.
    replace ((1 <=? Z.of_nat k + 1) && (Z.of_nat k + 1 <=? Z.of_nat (length (cells arr))))
      with true by (symmetry; apply andb_true_iff; split; apply Z.leb_le; lia).
    replace (Z.to_nat (Z.of_nat k + 1 - 1)) with k by lia.
    rewrite Hc. simpl. unfold setitem at 1. unfold len.
    replace ((0 <=? Z.of_nat k) && (Z.of_nat k <? Z.of_nat (length (pre ++ o :: old))))
      with true
      by (symmetry; apply andb_true_iff; split;
          [apply Z.leb_le; lia | apply Z.ltb_lt; rewrite length_app; simpl; lia]).
    replace (Z.to_nat (Z.of_nat k)) with (length pre + 0)%nat by lia.
    rewrite insert_app_r. simpl.
    specialize (IH (S k) (pre ++ [[Pnt_X c; Pnt_Y c; Pnt_Z c]]) old).
    rewrite <- app_assoc in IH. simpl in IH. rewrite IH.
    + rewrite (drop_S _ _ _ Hc). rewrite <- app_assoc. reflexivity.
    + rewrite length_app. simpl. lia.
    + lia.
    + lia.
Qed.

Lemma to_np_from_tcolgp_array1_pnt_ok (arr : Array1 gp_Pnt) :
  Lower arr = 1 -> Upper arr = len (cells arr) ->
  to_np_from_tcolgp_array1_pnt arr = Ok (map coords (cells arr)).
Proof.
  intros Hlo Hup. unfold to_np_from_tcolgp_array1_pnt, Length, zeros2, zeros, range.
  rewrite Hlo, Hup. unfold len.
  replace (Z.of_nat (length (cells arr)) - 1 + 1) with (Z.of_nat (length (cells arr))) by lia.
  replace (Z.of_nat (length (cells arr)) <? 0) with false
    by (symmetry; apply Z.ltb_ge; lia).
  simpl. rewrite Nat2Z.id.
  apply (read_back_ok arr Hlo Hup (length (cells arr)) 0%nat []); simpl; try lia.
  apply length_replicate.
Qed.

Lemma as_double_number x v : as_double x = Ok v -> number x = Some v.
Proof.
  destruct x; simpl; try discriminate.
  - destruct (is_infinity (float_of_Z z)); [discriminate|]. congruence.
  - congruence.
Qed.

Lemma gp_Pnt_new_coords a b c q :
  gp_Pnt_new [a; b; c] = Ok q ->
  match number a, number b, number c with
  | Some x, Some y, Some z => Some [x; y; z]
  | _, _, _ => None
  end = Some (coords q).
Proof.
  unfold gp_Pnt_new.
  destruct (as_double a) as [x|] eqn:Ha; simpl; [|discriminate].
  destruct (as_double b) as [y|] eqn:Hb; simpl; [|discriminate].
  destruct (as_double c) as [z|] eqn:Hc; simpl; [|discriminate].
  intros [= <-].
  rewrite (as_double_number _ _ Ha), (as_double_number _ _ Hb), (as_double_number _ _ Hc).
  reflexivity.
Qed.

Local Arguments gp_Pnt_new : simpl never.

Lemma to_gp_pnt_of_items items q :
  (if len items =? 3 then q <- gp_Pnt_new items ;; Ok (Some q) else Ok None)
  = Ok (Some q) ->
  exists a b c, items = [a; b; c] /\ gp_Pnt_new [a; b; c] = Ok q.
Proof.
  destruct (len items =? 3) eqn:E; [|discriminate].
  apply Z.eqb_eq in E. unfold len in E.
  destruct items as [|a [|b [|c [|d items]]]]; simpl in E; try lia.
  intros H. exists a, b, c. split; [reflexivity|].
  destruct (gp_Pnt_new [a; b; c]); simpl in H; congruence.
Qed.

Lemma to_gp_pnt_host_coords p q :
  _to_gp_pnt p = Ok (Some q) -> host_coords p = Some (coords q).
Proof.
  destruct p as [ | | | |items|items|r| | ]; try discriminate.
  - intros H. apply (to_gp_pnt_of_items items) in H as (a & b & c & -> & H).
    apply gp_Pnt_new_coords, H.
  - intros H. apply (to_gp_pnt_of_items items) in H as (a & b & c & -> & H).
    apply gp_Pnt_new_coords, H.
  - simpl. congruence.
Qed.

Lemma lookup_map {A B : Type} (f : A -> B) (l : list A) (i : nat) :
  map f l !! i = option_map f (l !! i).
Proof.
  revert i. induction l as [|x l IH]; intros [|i]; simpl; auto.
Qed.

Lemma comprehension_raises {A B : Type} (f : A -> result B) (l : list A) :
  Exists (fun x => exists e, f x = Raise e) l ->
  exists e, comprehension f l = Raise e.
Proof.
  intros H. unfold comprehension.
  enough (Hacc : forall acc, exists e,
             for_each l (fun x acc => y <- f x ;; Ok (acc ++ [y])) acc = Raise e)
    by apply Hacc.
  induction H as [x l [e Hx]|x l _ IH]; intros acc; simpl.
  - rewrite Hx. simpl. eauto.
  - destruct (f x) as [y|e]; simpl; [apply IH | eauto].
Qed.

Lemma SetValue2_bounds i j gp (a a' : Array2 gp_Pnt) :
  SetValue2 i j gp a = Ok a' ->
  LowerRow a' = LowerRow a /\ UpperRow a' = UpperRow a /\
  LowerCol a' = LowerCol a /\ UpperCol a' = UpperCol a.
Proof.
  unfold SetValue2. destruct gp; [|discriminate].
  destruct (_ && _); [|discriminate]. intros [= <-]. simpl. auto.
Qed.

(** The grid conversion never shrinks its array: whenever it returns, the
    bounds are those of the grid. *)
Lemma to_tcolgp_array2_pnt_bounds float_of_string pnts n0 arr n1 :
  to_tcolgp_array2_pnt float_of_string pnts n0 = (Ok arr, n1) ->
  exists a n m,
    np_array float_of_string pnts = Ok a /\ shape2 a = Ok (n, m) /\
    LowerRow arr = 1 /\ UpperRow arr = n /\ LowerCol arr = 1 /\ UpperCol arr = m.
Proof.
  unfold to_tcolgp_array2_pnt, mbind, lift.
  destruct (np_array float_of_string pnts) as [a|e]; [|discriminate].
  destruct (shape2 a) as [[n m]|e] eqn:Hshape; [|discriminate].
  match goal with |- context [for_each (range n) ?body []] =>
    destruct (for_each (range n) body []) as [gp_pnts|e]; [|discriminate] end.
  unfold TColgp_Array2OfPnt.
  destruct ((n <? 1) || (m <? 1)); [discriminate|].
  intros H. exists a, n, m. split; [reflexivity|]. split; [exact Hshape|].
  match type of H with (for_each ?l ?body ?s, _) = _ =>
    assert (Hrun : for_each l body s = Ok arr) by congruence;
    apply (for_each_preserves
             (fun x : Array2 gp_Pnt =>
                LowerRow x = 1 /\ UpperRow x = n /\ LowerCol x = 1 /\ UpperCol x = m))
      in Hrun end.
  - exact Hrun.
  - intros [i row] s s' Hrow Hs.
    apply (for_each_preserves
             (fun x : Array2 gp_Pnt =>
                LowerRow x = 1 /\ UpperRow x = n /\ LowerCol x = 1 /\ UpperCol x = m))
      in Hrow; [exact Hrow| |exact Hs].
    intros [j gp] t t' Hset Ht. apply SetValue2_bounds in Hset.
    destruct Hset as (-> & -> & -> & ->). exact Ht.
  - simpl. auto.
Qed.

(** What the helper turns down, in terms of the element itself. *)
Lemma rejected_to_gp_pnt p :
  rejected _to_gp_pnt p = true <->
  (forall q, p <> Py_gp_Pnt q) /\
  is_array_like p && (len (items_of p) =? 3) = false.
Proof.
  unfold rejected.
  destruct p as [ | | | |items|items|r| | ]; simpl;
    try (split; [intros _; split; [discriminate|reflexivity] | reflexivity]).
  - destruct (len items =? 3); simpl.
    + destruct (gp_Pnt_new items); simpl; split; try discriminate; intros [_ H]; discriminate.
    + split; [intros _; split; [discriminate|reflexivity] | reflexivity].
  - destruct (len items =? 3); simpl.
    + destruct (gp_Pnt_new items); simpl; split; try discriminate; intros [_ H]; discriminate.
    + split; [intros _; split; [discriminate|reflexivity] | reflexivity].
  - split; [discriminate|]. intros [H _]. destruct (H r). reflexivity.
Qed.

(** C4 (as amended): [to_tcolgp_array1_pnt], run on a sequence whose every
    element either coerces to a point or is turned down by the helper
    (neither a kernel point nor an array-like of length 3), skips the
    elements turned down: N elements of which K < N are turned down give
    one array with lower bound 1 and length N - K that holds the coerced
    points in their order at the indices 1, 2, ...  The grid conversion
    [to_tcolgp_array2_pnt] has no skip: whenever it returns, its array has
    the full bounds 1..n by 1..m of the grid. *)
Theorem point_conversion_skips_rejected_elements float_of_string pnts n0 :
  (Forall (returns _to_gp_pnt) pnts ->
   (length (List.filter (rejected _to_gp_pnt) pnts) < length pnts)%nat ->
   exists arr,
     to_tcolgp_array1_pnt pnts n0 = (Ok arr, S n0) /\
     Lower arr = 1 /\
     Length arr = len pnts - len (List.filter (rejected _to_gp_pnt) pnts) /\
     cells arr = omap (kept _to_gp_pnt) pnts /\
     forall i q, omap (kept _to_gp_pnt) pnts !! i = Some q ->
                 Value (1 + Z.of_nat i) arr = Ok q) /\
  (forall grid arr2 n1,
     to_tcolgp_array2_pnt float_of_string grid n0 = (Ok arr2, n1) ->
     exists a n m,
       np_array float_of_string grid = Ok a /\ shape2 a = Ok (n, m) /\
       LowerRow arr2 = 1 /\ UpperRow arr2 = n /\
       LowerCol arr2 = 1 /\ UpperCol arr2 = m).
Proof.
  split.
  - intros Hret Hsome. eexists.
    split; [apply to_tcolgp_array1_pnt_ok; [exact Hret|]|].
    { apply kept_nonempty; assumption. }
    simpl. split; [reflexivity|]. split; [|split; [reflexivity|]].
    + unfold Length, len. simpl. pose proof (length_kept _ _ Hret). lia.
    + intros i q Hq. unfold Value, len. simpl.
      pose proof (lookup_lt_Some _ _ _ Hq) as Hlt.
      replace ((1 <=? 1 + Z.of_nat i) &&
               (1 + Z.of_nat i <=? Z.of_nat (length (omap (kept _to_gp_pnt) pnts))))
        with true by (symmetry; apply andb_true_iff; split; apply Z.leb_le; lia).
      replace (Z.to_nat (1 + Z.of_nat i - 1)) with i by lia.
      rewrite Hq. reflexivity.
  - intros grid arr2 n1. apply to_tcolgp_array2_pnt_bounds.
Qed.

(** C6: when one element of the sequence is not convertible by [float]
    (by [int]), [to_tcolstd_array1_real] ([to_tcolstd_array1_integer])
    raises, and the count of allocated kernel arrays is unchanged: the
    exception comes before the array is created. *)
Theorem scalar_conversion_raises_before_allocation
    float_of_string int_of_string array n0 :
  (Exists (fun x => exists e, py_float float_of_string x = Raise e) array ->
   exists e, to_tcolstd_array1_real float_of_string array n0 = (Raise e, n0)) /\
  (Exists (fun x => exists e, py_int int_of_string x = Raise e) array ->
   exists e, to_tcolstd_array1_integer int_of_string array n0 = (Raise e, n0)).
Proof.
  split; intros H; apply comprehension_raises in H as [e He]; exists e.
  - unfold to_tcolstd_array1_real, mbind, lift. rewrite He. reflexivity.
  - unfold to_tcolstd_array1_integer, mbind, lift. rewrite He. reflexivity.
Qed.

(** C7 (as amended): a sequence of N >= 1 elements that all coerce to a
    point goes to a kernel array and back as N rows, row [i] holding exactly
    the three coordinates of element [i]. *)
Theorem point_array_round_trip pnts n0 :
  pnts <> [] ->
  Forall (coercible _to_gp_pnt) pnts ->
  exists arr out,
    to_tcolgp_array1_pnt pnts n0 = (Ok arr, S n0) /\
    to_np_from_tcolgp_array1_pnt arr = Ok out /\
    length out = length pnts /\
    forall i p, pnts !! i = Some p -> out !! i = host_coords p.
Proof.
  intros Hne Hall.
  assert (Hret : Forall (returns _to_gp_pnt) pnts).
  { eapply Forall_impl; [exact Hall|]. intros p. apply coercible_returns. }
  pose proof (kept_coercible _ _ Hall) as Hqs.
  assert (Hkept : omap (kept _to_gp_pnt) pnts <> []).
  { intros Hnil. rewrite Hnil in Hqs. apply Forall2_length in Hqs.
    destruct pnts; [congruence|discriminate]. }
  eexists. eexists. split; [apply to_tcolgp_array1_pnt_ok; assumption|].
  split; [apply to_np_from_tcolgp_array1_pnt_ok; reflexivity|]. simpl.
  split.
  - rewrite length_map. symmetry. eapply Forall2_length, Hqs.
  - intros i p Hp. rewrite lookup_map.
    destruct (Forall2_lookup_l _ _ _ _ _ Hqs Hp) as (q & Hq & Hpq).
    rewrite Hq. simpl. symmetry. apply to_gp_pnt_host_coords, Hpq.
Qed.

End TcolFacts.

(** ** The conversions on sample inputs *)

Section TcolInstances.
Import Tcol.

(** C4, as stated, fails.  On the grid conversion: the one entry of the grid
    has two coordinates and the helper turns it down (N = 1, K = 1), yet no
    array of length 0 comes back: the entry reaches [SetValue] as [None]
    and the conversion raises.  On the sequence conversion: a triple of
    texts cannot be coerced to a point, and it is not skipped either: the
    point constructor raises and no array is produced.  And when every
    element is turned down (N = K = 1) no array of length 0 comes back: the
    array constructor refuses the range 1..0. *)
Lemma point_conversion_does_not_always_skip :
  (rejected _to_gp_pnt (PyList [PyFloat 1; PyFloat 2]) = true /\
   to_tcolgp_array2_pnt no_number sample_grid 0%nat = (Raise TypeError, 1%nat)) /\
  (kept _to_gp_pnt (PyTuple [PyStr "a"; PyStr "b"; PyStr "c"]) = None /\
   to_tcolgp_array1_pnt [PyTuple [PyStr "a"; PyStr "b"; PyStr "c"]] 0%nat
   = (Raise TypeError, 0%nat)) /\
  (rejected _to_gp_pnt PyNone = true /\
   to_tcolgp_array1_pnt [PyNone] 0%nat = (Raise Standard_RangeError, 0%nat)).
Proof. repeat split; reflexivity. Qed.

Lemma point_conversion_skips_rejected_elements_witness :
  exists arr,
    to_tcolgp_array1_pnt sample_mixed 0%nat = (Ok arr, 1%nat) /\
    Lower arr = 1 /\
    Length arr = len sample_mixed
                 - len (List.filter (rejected _to_gp_pnt) sample_mixed) /\
    cells arr = omap (kept _to_gp_pnt) sample_mixed /\
    forall i q, omap (kept _to_gp_pnt) sample_mixed !! i = Some q ->
                Value (1 + Z.of_nat i) arr = Ok q.
Proof.
  apply (proj1 (point_conversion_skips_rejected_elements no_number sample_mixed 0%nat)).
  - repeat constructor; eexists; reflexivity.
  - vm_compute. lia.
Defined.

Lemma scalar_conversion_raises_before_allocation_witness :
  exists e, to_tcolstd_array1_real no_number sample_scalars 0%nat = (Raise e, 0%nat).
Proof.
  apply (scalar_conversion_raises_before_allocation
           no_number no_integer sample_scalars 0%nat).
  do 2 apply Exists_cons_tl. apply Exists_cons_hd. eexists. reflexivity.
Defined.

(** C7, as stated, fails at N = 0: the empty sequence, all of whose
    elements are coercible, is not converted at all: the array constructor
    refuses the range 1..0 and nothing is left to read back. *)
Lemma empty_sequence_has_no_round_trip :
  Forall (coercible _to_gp_pnt) [] /\
  to_tcolgp_array1_pnt [] 0%nat = (Raise Standard_RangeError, 0%nat).
Proof. split; [constructor | reflexivity]. Qed.

Lemma point_array_round_trip_witness :
  exists arr out,
    to_tcolgp_array1_pnt sample_points 0%nat = (Ok arr, 1%nat) /\
    to_np_from_tcolgp_array1_pnt arr = Ok out /\
    length out = length sample_points /\
    forall i p, sample_points !! i = Some p -> out !! i = host_coords p.
Proof.
  apply (point_array_round_trip sample_points 0%nat).
  - discriminate.
  - repeat constructor; eexists; reflexivity.
Defined.

End TcolInstances.

(** * Further properties of the facade *)

Section BopMore.
Import Bop.

Variable K : Kernel.

Lemma invoke_extends c e e' :
  invoke K c e = Ok e' -> e' = record c e.
Proof. unfold invoke. destruct (responds K (e_class e) c); congruence. Qed.

Lemma bound_invoke_extends c self self' :
  (e <- invoke K c (_bop self) ;; Ok (mk_BopAlgo e)) = Ok self' ->
  extended_by [c] self self'.
Proof.
  destruct (invoke K c (_bop self)) as [e|x] eqn:He; simpl; [|discriminate].
  intros [= <-]. apply invoke_extends in He. subst e. repeat split.
Qed.

(** X1: every mutating method of the facade that returns leaves the engine
    class and the constructor operands as they were and only appends to the
    calls made so far: exactly one call for [set_args], [set_tools],
    [build], [add_arg] and [add_tool], one or none for [refine_edges]. *)
Theorem mutators_only_append self self' :
  (forall shapes, set_args K self shapes = Ok self' ->
                  exists c, extended_by [c] self self') /\
  (forall shapes, set_tools K self shapes = Ok self' ->
                  exists c, extended_by [c] self self') /\
  (build K self = Ok self' ->
   extended_by [if _is_splitter self then Perform else Build] self self') /\
  (forall shape, add_arg K self shape = Ok self' ->
                 extended_by [AddArgument shape] self self') /\
  (forall shape, add_tool K self shape = Ok self' ->
                 extended_by [AddTool shape] self self') /\
  (forall stream stream', refine_edges K self stream = Ok (self', stream') ->
     extended_by (if _is_splitter self then [] else [RefineEdges]) self self').
Proof.
  split; [|split; [|split; [|split; [|split]]]].
  - intros shapes. unfold set_args. cbv zeta.
    destruct (_is_splitter self), shapes; intros H; eexists;
      eapply bound_invoke_extends; exact H.
  - intros shapes. unfold set_tools. cbv zeta.
    destruct (_is_splitter self), shapes; intros H; eexists;
      eapply bound_invoke_extends; exact H.
  - unfold build. destruct (_is_splitter self); apply bound_invoke_extends.
  - intros shape. apply bound_invoke_extends.
  - intros shape. apply bound_invoke_extends.
  - intros stream stream'. unfold refine_edges. destruct (_is_splitter self).
    + intros [= <- _]. repeat split. rewrite app_nil_r. reflexivity.
    + destruct (invoke K RefineEdges (_bop self)) as [e|x] eqn:He; simpl; [|discriminate].
      intros [= <- _]. apply invoke_extends in He. subst e. repeat split.
Qed.

Lemma extended_by_splitter cs self self' :
  extended_by cs self self' -> _is_splitter self' = _is_splitter self.
Proof. intros (Hc & _ & _). unfold _is_splitter. rewrite Hc. reflexivity. Qed.

(** X2: [add_arg] and [add_tool] do not truncate: called once per shape of
    a sequence on a splitter, they hand every shape to the engine, in
    order. *)
Theorem add_arg_keeps_every_shape self shapes :
  _is_splitter self = true -> splitter_api K ->
  (exists self', add_args K self shapes = Ok self' /\
                 extended_by (map AddArgument shapes) self self') /\
  (exists self', add_tools K self shapes = Ok self' /\
                 extended_by (map AddTool shapes) self self').
Proof.
  intros Hs (Harg & Htool & _). split.
  - revert self Hs. induction shapes as [|s shapes IH]; intros self Hs; simpl.
    + exists self. split; [reflexivity|]. repeat split. rewrite app_nil_r. reflexivity.
    + unfold add_arg. rewrite invoke_answered
        by (rewrite (is_splitter_class _ Hs); apply Harg).
      simpl. destruct (IH (mk_BopAlgo (record (AddArgument s) (_bop self))))
        as (self' & Hrun & Hc & Ho & Hl).
      { unfold _is_splitter in *. simpl. exact Hs. }
      exists self'. split; [exact Hrun|]. repeat split; [exact Hc|exact Ho|].
      rewrite Hl. simpl. rewrite <- app_assoc. reflexivity.
  - revert self Hs. induction shapes as [|s shapes IH]; intros self Hs; simpl.
    + exists self. split; [reflexivity|]. repeat split. rewrite app_nil_r. reflexivity.
    + unfold add_tool. rewrite invoke_answered
        by (rewrite (is_splitter_class _ Hs); apply Htool).
      simpl. destruct (IH (mk_BopAlgo (record (AddTool s) (_bop self))))
        as (self' & Hrun & Hc & Ho & Hl).
      { unfold _is_splitter in *. simpl. exact Hs. }
      exists self'. split; [exact Hrun|]. repeat split; [exact Hc|exact Ho|].
      rewrite Hl. simpl. rewrite <- app_assoc. reflexivity.
Qed.

(** X3: on a facade that is no splitter the docstring sequence
    [set_args(args)], [set_tools(tools)], [build()] hands both sequences to
    the engine whole, whatever their lengths, and then runs [Build]; after
    it [is_done] is the engine's [IsDone]. *)
Theorem by_hand_standard self args tools :
  _is_splitter self = false -> standard_api K (e_class (_bop self)) ->
  exists self',
    by_hand K self args tools = Ok self' /\
    extended_by [SetArguments args; SetTools tools; Build] self self' /\
    is_done K self' = IsDone K (_bop self').
Proof.
  intros Hs (Ha & Ht & Hb & _).
  exists (mk_BopAlgo (mk_engine (e_class (_bop self)) (e_operands (_bop self))
                        (e_calls (_bop self) ++ [SetArguments args; SetTools tools; Build]))).
  assert (Hns : forall e, e_class e = e_class (_bop self) ->
                          _is_splitter (mk_BopAlgo e) = false).
  { intros e He. unfold _is_splitter in *. simpl. rewrite He. exact Hs. }
  split; [|split; [repeat split|]].
  - unfold by_hand, set_args, set_tools, build, to_toptools_listofshape.
    rewrite Hs. rewrite invoke_answered by apply Ha. simpl.
    rewrite Hns by reflexivity. rewrite invoke_answered by apply Ht. simpl.
    rewrite Hns by reflexivity. rewrite invoke_answered by apply Hb. simpl.
    unfold record. simpl. rewrite <- !app_assoc. reflexivity.
  - unfold is_done. rewrite Hns by reflexivity. reflexivity.
Qed.

(** X4: on a splitter built without operands the docstring sequence
    [set_args(args)], [set_tools(tools)], [build()] with non-empty sequences
    adds the first argument, the first tool and runs [Perform]; the
    instance it gives is never the one [SplitShapes(shape1, shape2)] builds
    from the same two shapes, which has received no tool. *)
Theorem by_hand_splitter_differs_from_constructor
    shape1 shape2 args tools parallel fuzzy_val :
  is_shape shape1 = true -> is_shape shape2 = true -> splitter_api K ->
  exists self0 self',
    SplitShapes K PyNone PyNone parallel fuzzy_val = Ok self0 /\
    by_hand K self0 (shape1 :: args) (shape2 :: tools) = Ok self' /\
    extended_by [AddArgument shape1; AddTool shape2; Perform] self0 self' /\
    SplitShapes K shape1 shape2 parallel fuzzy_val <> Ok self'.
Proof.
  intros H1 H2 Hapi. pose proof Hapi as (Harg & Htool & Hperf).
  exists (mk_BopAlgo (mk_engine GEOMAlgo_Splitter [] (configuration parallel fuzzy_val))).
  exists (mk_BopAlgo (mk_engine GEOMAlgo_Splitter []
            (configuration parallel fuzzy_val
             ++ [AddArgument shape1; AddTool shape2; Perform]))).
  split; [|split; [|split; [repeat split|]]].
  - unfold SplitShapes. rewrite init_without_operands by reflexivity. reflexivity.
  - unfold by_hand, set_args, set_tools, build. simpl.
    repeat (rewrite invoke_answered by (simpl; auto); simpl).
    unfold record. simpl. rewrite <- !app_assoc. reflexivity.
  - rewrite (SplitShapes_valid K) by assumption. intros [= H].
    apply app_inv_head in H. discriminate.
Qed.

End BopMore.

Section BopMoreInstances.
Import Bop.

Lemma mutators_only_append_witness :
  build doctest_kernel empty_splitter
  = Ok (mk_BopAlgo (record Perform (_bop empty_splitter))) /\
  extended_by [Perform] empty_splitter
              (mk_BopAlgo (record Perform (_bop empty_splitter))).
Proof.
  split; [reflexivity|].
  apply (mutators_only_append doctest_kernel empty_splitter
           (mk_BopAlgo (record Perform (_bop empty_splitter)))).
  reflexivity.
Defined.

Lemma add_arg_keeps_every_shape_witness :
  exists self', add_args doctest_kernel empty_splitter [e1; e2] = Ok self' /\
                extended_by (map AddArgument [e1; e2]) empty_splitter self'.
Proof.
  apply (add_arg_keeps_every_shape doctest_kernel empty_splitter [e1; e2]);
    [reflexivity | repeat split].
Defined.

Lemma by_hand_standard_witness :
  exists self',
    by_hand doctest_kernel
            (mk_BopAlgo (mk_engine BRepAlgoAPI_Fuse [] [SetRunParallel true]))
            [e1] [e2] = Ok self' /\
    extended_by [SetArguments [e1]; SetTools [e2]; Build]
                (mk_BopAlgo (mk_engine BRepAlgoAPI_Fuse [] [SetRunParallel true])) self' /\
    is_done doctest_kernel self' = IsDone doctest_kernel (_bop self').
Proof.
  apply (by_hand_standard doctest_kernel
           (mk_BopAlgo (mk_engine BRepAlgoAPI_Fuse [] [SetRunParallel true])) [e1] [e2]);
    [reflexivity | repeat split].
Defined.

Lemma by_hand_splitter_differs_from_constructor_witness :
  exists self0 self',
    SplitShapes doctest_kernel PyNone PyNone true None = Ok self0 /\
    by_hand doctest_kernel self0 [e1] [e2] = Ok self' /\
    extended_by [AddArgument e1; AddTool e2; Perform] self0 self' /\
    SplitShapes doctest_kernel e1 e2 true None <> Ok self'.
Proof.
  apply (by_hand_splitter_differs_from_constructor doctest_kernel e1 e2 [] [] true None);
    [reflexivity | reflexivity | repeat split].
Defined.

End BopMoreInstances.

(** * Further properties of the array marshalling layer *)

Section TcolMore.
Import Tcol.

Lemma comprehension_ok {A B : Type} (f : A -> result B) (l : list A) (ys : list B) :
  Forall2 (fun x y => f x = Ok y) l ys -> comprehension f l = Ok ys.
Proof.
  intros H. unfold comprehension.
  enough (Hacc : forall acc,
             for_each l (fun x acc => y <- f x ;; Ok (acc ++ [y])) acc = Ok (acc ++ ys))
    by apply (Hacc []).
  induction H as [|x y l ys Hx _ IH]; intros acc; simpl.
  - rewrite app_nil_r. reflexivity.
  - rewrite Hx. simpl. rewrite IH, <- app_assoc. reflexivity.
Qed.

Lemma comprehension_first_failure {A B : Type} (f : A -> result B)
    (pre : list A) (x : A) (rest : list A) (e : exn) :
  Forall (fun x => exists y, f x = Ok y) pre -> f x = Raise e ->
  comprehension f (pre ++ x :: rest) = Raise e.
Proof.
  intros Hpre Hx. unfold comprehension.
  enough (Hacc : forall acc,
             for_each (pre ++ x :: rest)
                      (fun x acc => y <- f x ;; Ok (acc ++ [y])) acc = Raise e)
    by apply Hacc.
  induction Hpre as [|p pre [y Hp] _ IH]; intros acc; simpl.
  - rewrite Hx. reflexivity.
  - rewrite Hp. simpl. apply IH.
Qed.

Lemma for_each_ext_in {A S : Type} (f g : A -> S -> result S) (l : list A) :
  Forall (fun x => forall s, f x s = g x s) l ->
  forall s, for_each l f s = for_each l g s.
Proof.
  induction 1 as [|x l Hx _ IH]; intros s; simpl; [reflexivity|].
  rewrite Hx. destruct (g x s); simpl; auto.
Qed.

Lemma enumerate_values {A : Type} (P : A -> Prop) (xs : list A) :
  Forall P xs -> forall k, Forall (fun ix => P (snd ix)) (enumerate xs k).
Proof.
  induction 1 as [|x xs Hx _ IH]; intros k; simpl; constructor; auto.
Qed.

Lemma Forall2_nonempty {A B : Type} (R : A -> B -> Prop) (l : list A) (k : list B) :
  Forall2 R l k -> l <> [] -> k <> [].
Proof. intros H Hne ->. inversion H; subst. congruence. Qed.

(** The loops of the scalar conversions on elements that all convert. *)
Lemma to_tcolstd_array1_real_ok float_of_string array flts n0 :
  array <> [] ->
  Forall2 (fun x v => py_float float_of_string x = Ok v) array flts ->
  to_tcolstd_array1_real float_of_string array n0
  = (Ok (mk_Array1 1 (len array) flts), S n0).
Proof.
  intros Hne H. unfold to_tcolstd_array1_real.
  unfold mbind at 1. unfold lift at 1. rewrite (comprehension_ok _ _ _ H).
  cbv zeta. unfold TColStd_Array1OfReal.
  rewrite Array1_filled by (eapply Forall2_nonempty; eassumption).
  unfold len. rewrite (Forall2_length _ _ _ H). reflexivity.
Qed.

Lemma Forall_results {A B : Type} (f : A -> result B) (l : list A) :
  Forall (fun x => exists y, f x = Ok y) l ->
  exists ys, Forall2 (fun x y => f x = Ok y) l ys.
Proof.
  induction 1 as [|x l [y Hx] _ [ys IH]].
  - exists []. constructor.
  - exists (y :: ys). constructor; assumption.
Qed.

(** X5: a non-empty sequence whose elements all convert by [float] becomes
    one array with lower bound 1 and as many cells as the sequence has
    elements, cell by cell the converted values in order: unlike the
    conversion of points, the conversion of scalars keeps the length.  The
    empty sequence is not converted: the array constructor refuses the
    range 1..0 and no array is created. *)
Theorem real_conversion_keeps_length float_of_string array n0 :
  (array <> [] ->
   Forall (fun x => exists v, py_float float_of_string x = Ok v) array ->
   exists arr,
     to_tcolstd_array1_real float_of_string array n0 = (Ok arr, S n0) /\
     Lower arr = 1 /\ Length arr = len array /\
     Forall2 (fun x v => py_float float_of_string x = Ok v) array (cells arr)) /\
  to_tcolstd_array1_real float_of_string [] n0 = (Raise Standard_RangeError, n0).
Proof.
  split; [|reflexivity].
  intros Hne Hall. destruct (Forall_results _ _ Hall) as [flts Hflts].
  exists (mk_Array1 1 (len array) flts).
  split; [apply to_tcolstd_array1_real_ok; assumption|].
  split; [reflexivity|]. split; [|exact Hflts].
  unfold Length. simpl. lia.
Qed.

Lemma to_tcolstd_array1_integer_ok int_of_string array ints n0 :
  array <> [] ->
  Forall2 (fun x z => py_int int_of_string x = Ok z) array ints ->
  Forall fits_integer ints ->
  to_tcolstd_array1_integer int_of_string array n0
  = (Ok (mk_Array1 1 (len array) ints), S n0).
Proof.
  intros Hne H Hfit. unfold to_tcolstd_array1_integer.
  unfold mbind at 1. unfold lift at 1. rewrite (comprehension_ok _ _ _ H).
  cbv zeta. unfold TColStd_Array1OfInteger.
  pose proof (Array1_filled 0 ints n0 (Forall2_nonempty _ _ _ H Hne)) as Hfill.
  unfold mbind, lift in *.
  destruct (Array1_new 0 1 (len ints) n0) as [[a|e] n1]; [|discriminate].
  rewrite (for_each_ext_in _ (fun '(i, x) a => SetValue i x a)).
  - rewrite Hfill. unfold len. rewrite (Forall2_length _ _ _ H). reflexivity.
  - eapply Forall_impl; [apply (enumerate_values _ _ Hfit)|].
    intros [i x] [Hlo Hhi] s. simpl in *. unfold SetValue_integer.
    replace ((- 2 ^ 31 <=? x) && (x <? 2 ^ 31)) with true; [reflexivity|].
    symmetry. apply andb_true_iff. split; [apply Z.leb_le|apply Z.ltb_lt]; assumption.
Qed.

(** X6: a non-empty sequence whose elements all convert by [int] to values
    of the kernel's 32-bit integer range becomes one array with lower bound
    1 and as many cells as the sequence has elements, cell by cell the
    converted values in order.  The empty sequence is not converted: the
    array constructor refuses the range 1..0 and no array is created. *)
Theorem integer_conversion_keeps_length int_of_string array n0 :
  (array <> [] ->
   Forall (fun x => exists z, py_int int_of_string x = Ok z /\ fits_integer z) array ->
   exists arr,
     to_tcolstd_array1_integer int_of_string array n0 = (Ok arr, S n0) /\
     Lower arr = 1 /\ Length arr = len array /\
     Forall2 (fun x z => py_int int_of_string x = Ok z) array (cells arr)) /\
  to_tcolstd_array1_integer int_of_string [] n0 = (Raise Standard_RangeError, n0).
Proof.
  split; [|reflexivity].
  intros Hne Hall.
  assert (Hconv : Forall (fun x => exists z, py_int int_of_string x = Ok z) array).
  { eapply Forall_impl; [exact Hall|]. intros x (z & Hz & _). eauto. }
  destruct (Forall_results _ _ Hconv) as [ints Hints].
  assert (Hfit : Forall fits_integer ints).
  { clear Hconv Hne. induction Hints as [|x z array ints Hx _ IH]; constructor.
    - inversion Hall as [|? ? (z' & Hz' & Hfz) _]; subst. congruence.
    - apply IH. inversion Hall; assumption. }
  exists (mk_Array1 1 (len array) ints).
  split; [apply to_tcolstd_array1_integer_ok; assumption|].
  split; [reflexivity|]. split; [|exact Hints].
  unfold Length. simpl. lia.
Qed.

(** Reading a kernel array back copies cell [i + 1] to position [i]. *)
Lemma read_loop_ok {A B : Type} (g : A -> B) (arr : Array1 A) :
  from_one arr ->
  forall m k pre old,
    length pre = k -> length old = m -> (k + m = length (cells arr))%nat ->
    for_each (map Z.of_nat (seq k m))
      (fun i array => x <- Value (i + 1) arr ;; setitem i (g x) array)
      (pre ++ old)
    = Ok (pre ++ map g (drop k (cells arr))).
Proof.
  intros [Hlo Hup]. induction m as [|m IH]; intros k pre old Hpre Hold Hkm.
  - destruct old; [|discriminate]. simpl.
    rewrite drop_ge by lia. reflexivity.
  - destruct old as [|o old]; [discriminate|]. simpl in Hold. simpl.
    destruct (lookup_lt_is_Some_2 (cells arr) k) as [c Hc]; [lia|].
    unfold Value at 1. rewrite Hlo, Hup. unfold len.
    replace ((1 <=? Z.of_nat k + 1) && (Z.of_nat k + 1 <=? Z.of_nat (length (cells arr))))
      with true by (symmetry; apply andb_true_iff; split; apply Z.leb_le; lia).
    replace (Z.to_nat (Z.of_nat k + 1 - 1)) with k by lia.
    rewrite Hc. simpl. unfold setitem at 1. unfold len.
    replace ((0 <=? Z.of_nat k) && (Z.of_nat k <? Z.of_nat (length (pre ++ o :: old))))
      with true
      by (symmetry; apply andb_true_iff; split;
          [apply Z.leb_le; lia | apply Z.ltb_lt; rewrite length_app; simpl; lia]).
    replace (Z.to_nat (Z.of_nat k)) with (length pre + 0)%nat by lia.
    rewrite insert_app_r. simpl.
    specialize (IH (S k) (pre ++ [g c]) old).
    rewrite <- app_assoc in IH. simpl in IH. rewrite IH.
    + rewrite (drop_S _ _ _ Hc). rewrite <- app_assoc. reflexivity.
    + rewrite length_app. simpl. lia.
    + lia.
    + lia.
Qed.

Lemma map_id_eq {A : Type} (l : list A) : map (fun x => x) l = l.
Proof. induction l; simpl; congruence. Qed.

(** The readers on an array that starts at 1. *)
Lemma array1_readers_ok :
  (forall a : Array1 float, from_one a ->
     to_np_from_tcolstd_array1_real a = Ok (cells a)) /\
  (forall a : Array1 Z, from_one a ->
     to_np_from_tcolstd_array1_integer a = Ok (cells a)) /\
  (forall a : Array1 gp_Pnt, from_one a ->
     to_np_from_tcolgp_array1_pnt a = Ok (map coords (cells a))).
Proof.
  assert (Hlen : forall (A : Type) (a : Array1 A), from_one a ->
            Length a = Z.of_nat (length (cells a))).
  { intros A a [Hlo Hup]. unfold Length, len in *. lia. }
  split; [|split].
  - intros a Ha. unfold to_np_from_tcolstd_array1_real, zeros, range.
    rewrite (Hlen _ _ Ha).
    replace (Z.of_nat (length (cells a)) <? 0) with false
      by (symmetry; apply Z.ltb_ge; lia).
    simpl. rewrite Nat2Z.id.
    pose proof (read_loop_ok (fun x : float => x) a Ha (length (cells a)) 0%nat []
                  (replicate (length (cells a)) 0%float)) as H.
    simpl in H. rewrite map_id_eq in H. apply H; [reflexivity| |reflexivity].
    apply length_replicate.
  - intros a Ha. unfold to_np_from_tcolstd_array1_integer, zeros_int, range.
    rewrite (Hlen _ _ Ha).
    replace (Z.of_nat (length (cells a)) <? 0) with false
      by (symmetry; apply Z.ltb_ge; lia).
    simpl. rewrite Nat2Z.id.
    pose proof (read_loop_ok (fun x : Z => x) a Ha (length (cells a)) 0%nat []
                  (replicate (length (cells a)) 0)) as H.
    simpl in H. rewrite map_id_eq in H. apply H; [reflexivity| |reflexivity].
    apply length_replicate.
  - intros a [Hlo Hup]. apply to_np_from_tcolgp_array1_pnt_ok; assumption.
Qed.

Lemma Value_cell {A : Type} (a : Array1 A) (i : nat) (v : A) :
  Lower a = 1 -> Value (Z.of_nat i + 1) a = Ok v -> cells a !! i = Some v.
Proof.
  intros Hlo. unfold Value. rewrite Hlo.
  destruct ((1 <=? Z.of_nat i + 1) && (Z.of_nat i + 1 <=? Upper a)); [|discriminate].
  replace (Z.to_nat (Z.of_nat i + 1 - 1)) with i by lia.
  destruct (cells a !! i); congruence.
Qed.

(** X7: the three readers of one-dimensional arrays, run on any array with
    lower bound 1, return exactly as many entries as the array is long,
    entry [i] being what [Value(i + 1)] gives (for points, its three
    coordinates): the direction from the kernel filters nothing. *)
Theorem readers_keep_every_cell :
  (forall a : Array1 float, from_one a ->
     exists out, to_np_from_tcolstd_array1_real a = Ok out /\
       len out = Length a /\
       forall i v, Value (Z.of_nat i + 1) a = Ok v -> out !! i = Some v) /\
  (forall a : Array1 Z, from_one a ->
     exists out, to_np_from_tcolstd_array1_integer a = Ok out /\
       len out = Length a /\
       forall i v, Value (Z.of_nat i + 1) a = Ok v -> out !! i = Some v) /\
  (forall a : Array1 gp_Pnt, from_one a ->
     exists out, to_np_from_tcolgp_array1_pnt a = Ok out /\
       len out = Length a /\
       forall i p, Value (Z.of_nat i + 1) a = Ok p ->
                   out !! i = Some [Pnt_X p; Pnt_Y p; Pnt_Z p]).
Proof.
  destruct array1_readers_ok as (Hreal & Hint & Hpnt).
  assert (Hlen : forall (A : Type) (a : Array1 A), from_one a ->
            len (cells a) = Length a).
  { intros A a [Hlo Hup]. unfold Length, len in *. lia. }
  split; [|split]; intros a Ha; pose proof Ha as [Hlo _].
  - exists (cells a). split; [apply Hreal, Ha|]. split; [apply Hlen, Ha|].
    intros i v. apply Value_cell, Hlo.
  - exists (cells a). split; [apply Hint, Ha|]. split; [apply Hlen, Ha|].
    intros i v. apply Value_cell, Hlo.
  - exists (map coords (cells a)). split; [apply Hpnt, Ha|].
    split; [unfold len; rewrite length_map; apply Hlen, Ha|].
    intros i p Hp. rewrite lookup_map, (Value_cell _ _ _ Hlo Hp). reflexivity.
Qed.

(** X8: scalars survive the round trip unchanged: a non-empty sequence of
    floats, and a non-empty sequence of ints of the kernel's integer range,
    converted to a kernel array and read back, is the sequence itself. *)
Theorem scalar_round_trip float_of_string int_of_string n0 :
  (forall vs : list float, vs <> [] ->
     exists arr,
       to_tcolstd_array1_real float_of_string (map PyFloat vs) n0 = (Ok arr, S n0) /\
       to_np_from_tcolstd_array1_real arr = Ok vs) /\
  (forall zs : list Z, zs <> [] -> Forall fits_integer zs ->
     exists arr,
       to_tcolstd_array1_integer int_of_string (map PyInt zs) n0 = (Ok arr, S n0) /\
       to_np_from_tcolstd_array1_integer arr = Ok zs).
Proof.
  split.
  - intros vs Hne. exists (mk_Array1 1 (len (map PyFloat vs)) vs). split.
    + apply to_tcolstd_array1_real_ok.
      * destruct vs; [congruence|discriminate].
      * clear Hne. induction vs; simpl; constructor; auto.
    + apply array1_readers_ok. split; [reflexivity|].
      simpl. unfold len. rewrite length_map. reflexivity.
  - intros zs Hne Hfit. exists (mk_Array1 1 (len (map PyInt zs)) zs). split.
    + apply to_tcolstd_array1_integer_ok; [| |exact Hfit].
      * destruct zs; [congruence|discriminate].
      * clear Hfit Hne. induction zs; simpl; constructor; auto.
    + apply array1_readers_ok. split; [reflexivity|].
      simpl. unfold len. rewrite length_map. reflexivity.
Qed.

(** X9: the exception a scalar conversion raises is the one of the first
    element that does not convert, and it comes before the array is
    created. *)
Theorem scalar_conversion_raises_first_failure
    float_of_string int_of_string pre x rest e n0 :
  (Forall (fun x => exists v, py_float float_of_string x = Ok v) pre ->
   py_float float_of_string x = Raise e ->
   to_tcolstd_array1_real float_of_string (pre ++ x :: rest) n0 = (Raise e, n0)) /\
  (Forall (fun x => exists z, py_int int_of_string x = Ok z) pre ->
   py_int int_of_string x = Raise e ->
   to_tcolstd_array1_integer int_of_string (pre ++ x :: rest) n0 = (Raise e, n0)).
Proof.
  split; intros Hpre Hx.
  - unfold to_tcolstd_array1_real, mbind, lift.
    rewrite (comprehension_first_failure _ _ _ _ _ Hpre Hx). reflexivity.
  - unfold to_tcolstd_array1_integer, mbind, lift.
    rewrite (comprehension_first_failure _ _ _ _ _ Hpre Hx). reflexivity.
Qed.

Lemma as_double_number_iff x :
  (is_number x = true -> exists v, as_double x = Ok v) /\
  (is_number x = false -> as_double x = Raise TypeError).
Proof.
  destruct x; simpl; split; intros H; try discriminate; eauto.
  - destruct (is_infinity (float_of_Z z)); [discriminate|eauto].
  - destruct (is_infinity (float_of_Z z)); [reflexivity|discriminate].
Qed.

Lemma gp_Pnt_new_numbers a b c :
  (forallb is_number [a; b; c] = true -> exists q, gp_Pnt_new [a; b; c] = Ok q) /\
  (forallb is_number [a; b; c] = false -> gp_Pnt_new [a; b; c] = Raise TypeError).
Proof.
  unfold gp_Pnt_new. simpl.
  destruct (as_double_number_iff a) as [Ha1 Ha0], (as_double_number_iff b) as [Hb1 Hb0],
           (as_double_number_iff c) as [Hc1 Hc0].
  destruct (is_number a).
  - destruct (Ha1 eq_refl) as [x ->]. simpl. destruct (is_number b).
    + destruct (Hb1 eq_refl) as [y ->]. simpl. destruct (is_number c).
      * destruct (Hc1 eq_refl) as [z ->]. simpl. split; [eauto|discriminate].
      * rewrite (Hc0 eq_refl). simpl. split; [discriminate|reflexivity].
    + rewrite (Hb0 eq_refl). simpl. split; [discriminate|reflexivity].
  - rewrite (Ha0 eq_refl). simpl. split; [discriminate|reflexivity].
Qed.

Lemma to_gp_pnt_of_sequence items :
  (bad_triple (PyList items) = true ->
   (if len items =? 3 then q <- gp_Pnt_new items ;; Ok (Some q) else Ok None)
   = Raise TypeError) /\
  (bad_triple (PyList items) = false ->
   exists o, (if len items =? 3 then q <- gp_Pnt_new items ;; Ok (Some q) else Ok None)
             = Ok o).
Proof.
  unfold bad_triple. simpl.
  destruct (len items =? 3) eqn:E; simpl; [|split; [discriminate|eauto]].
  apply Z.eqb_eq in E. unfold len in E.
  destruct items as [|a [|b [|c [|d items]]]]; simpl in E; try lia.
  destruct (gp_Pnt_new_numbers a b c) as [H1 H0].
  destruct (forallb is_number [a; b; c]).
  - destruct (H1 eq_refl) as [q ->]. simpl. split; [discriminate|eauto].
  - rewrite (H0 eq_refl). simpl. split; [reflexivity|discriminate].
Qed.

Lemma to_gp_pnt_bad_triple p :
  (bad_triple p = true -> _to_gp_pnt p = Raise TypeError) /\
  (bad_triple p = false -> returns _to_gp_pnt p).
Proof.
  unfold returns.
  destruct p as [ | | | |items|items|r| | ];
    try (split; [discriminate|intros _; simpl; eauto]).
  - apply (to_gp_pnt_of_sequence items).
  - apply (to_gp_pnt_of_sequence items).
Qed.

Lemma kept_nil_iff {P : Type} (coerce : pyobj -> result (option P)) pnts :
  Forall (returns coerce) pnts ->
  (forallb (rejected coerce) pnts = true -> omap (kept coerce) pnts = []) /\
  (forallb (rejected coerce) pnts = false -> omap (kept coerce) pnts <> []).
Proof.
  induction 1 as [|p pnts [o Hp] _ [IH1 IH0]]; [split; [reflexivity|discriminate]|].
  cbn [forallb]. change (omap (kept coerce) (p :: pnts))
    with (match kept coerce p with
          | Some q => q :: omap (kept coerce) pnts
          | None => omap (kept coerce) pnts
          end).
  assert (Hk : kept coerce p = o) by (unfold kept; rewrite Hp; destruct o; reflexivity).
  assert (Hr : rejected coerce p = match o with None => true | Some _ => false end)
    by (unfold rejected; rewrite Hp; reflexivity).
  rewrite Hk, Hr. destruct o as [q|]; simpl.
  - split; [discriminate|]. intros _. discriminate.
  - split; assumption.
Qed.

(** X10: [to_tcolgp_array1_pnt] has three outcomes.  When the sequence
    holds an array-like of three items one of which is no number, it raises
    TypeError before any array is created.  Otherwise, when the helper turns
    every element down (the empty sequence included), no point is left, the
    array constructor refuses the range 1..0, and the call raises with no
    array created.  Otherwise it returns an array. *)
Theorem point_conversion_raises_on_bad_triple pnts n0 :
  (existsb bad_triple pnts = true ->
   to_tcolgp_array1_pnt pnts n0 = (Raise TypeError, n0)) /\
  (existsb bad_triple pnts = false ->
   forallb (rejected _to_gp_pnt) pnts = true ->
   to_tcolgp_array1_pnt pnts n0 = (Raise Standard_RangeError, n0)) /\
  (existsb bad_triple pnts = false ->
   forallb (rejected _to_gp_pnt) pnts = false ->
   exists arr, to_tcolgp_array1_pnt pnts n0 = (Ok arr, S n0)).
Proof.
  assert (Hret : existsb bad_triple pnts = false -> Forall (returns _to_gp_pnt) pnts).
  { intros H. induction pnts as [|p pnts IH]; constructor; simpl in H;
      apply orb_false_iff in H as [Hp Hrest]; [|auto].
    apply to_gp_pnt_bad_triple, Hp. }
  split; [|split].
  - intros H. clear Hret.
    unfold to_tcolgp_array1_pnt. unfold mbind at 1. unfold lift at 1.
    enough (Hacc : forall acc,
               for_each pnts
                 (fun gp gp_pnts =>
                    gp <- _to_gp_pnt gp ;;
                    match gp with
                    | None => Ok gp_pnts
                    | Some gp => Ok (gp_pnts ++ [gp])
                    end) acc = Raise TypeError)
      by (rewrite Hacc; reflexivity).
    induction pnts as [|p pnts IH]; [discriminate|]. intros acc. simpl in *.
    destruct (to_gp_pnt_bad_triple p) as [Hbad Hgood].
    destruct (bad_triple p).
    + rewrite (Hbad eq_refl). reflexivity.
    + destruct (Hgood eq_refl) as [o ->]. simpl. destruct o; simpl; apply IH, H.
  - intros H Hall. apply to_tcolgp_array1_pnt_refused; [exact (Hret H)|].
    apply (kept_nil_iff _ _ (Hret H)), Hall.
  - intros H Hsome. eexists. apply to_tcolgp_array1_pnt_ok; [exact (Hret H)|].
    apply (kept_nil_iff _ _ (Hret H)), Hsome.
Qed.

(** What a skipping loop leaves in its array. *)
Lemma skipping_array {P : Type} (coerce : pyobj -> result (option P)) pnts :
  Forall (returns coerce) pnts ->
  let arr := mk_Array1 1 (len (omap (kept coerce) pnts)) (omap (kept coerce) pnts) in
  Lower arr = 1 /\
  Length arr = len pnts - len (List.filter (rejected coerce) pnts) /\
  cells arr = omap (kept coerce) pnts /\
  forall i q, omap (kept coerce) pnts !! i = Some q ->
              Value (1 + Z.of_nat i) arr = Ok q.
Proof.
  intros Hret arr. split; [reflexivity|]. split; [|split; [reflexivity|]].
  - unfold Length, arr. cbn [Lower Upper]. unfold len.
    pose proof (length_kept _ _ Hret). lia.
  - intros i q Hq. unfold Value, arr. cbn [Lower Upper cells]. unfold len.
    pose proof (lookup_lt_Some _ _ _ Hq) as Hlt.
    replace ((1 <=? 1 + Z.of_nat i) &&
             (1 + Z.of_nat i <=? Z.of_nat (length (omap (kept coerce) pnts))))
      with true by (symmetry; apply andb_true_iff; split; apply Z.leb_le; lia).
    replace (Z.to_nat (1 + Z.of_nat i - 1)) with i by lia.
    rewrite Hq. reflexivity.
Qed.

(** X11: the two sibling conversions skip like [to_tcolgp_array1_pnt]:
    [to_tcolgp_array1_pnt2d] drops the elements that are neither a kernel
    2-D point nor an array-like of length 2, [to_tcolgp_harray1_pnt] those
    that are neither a kernel point nor an array-like of length 3; N
    elements of which K < N are dropped give an array with lower bound 1
    and length N - K that holds the coerced points in order. *)
Theorem sibling_conversions_skip pnts n0 :
  (Forall (returns _to_gp_pnt2d) pnts ->
   (length (List.filter (rejected _to_gp_pnt2d) pnts) < length pnts)%nat ->
   exists arr,
     to_tcolgp_array1_pnt2d pnts n0 = (Ok arr, S n0) /\
     Lower arr = 1 /\
     Length arr = len pnts - len (List.filter (rejected _to_gp_pnt2d) pnts) /\
     cells arr = omap (kept _to_gp_pnt2d) pnts /\
     forall i q, omap (kept _to_gp_pnt2d) pnts !! i = Some q ->
                 Value (1 + Z.of_nat i) arr = Ok q) /\
  (Forall (returns _to_gp_pnt) pnts ->
   (length (List.filter (rejected _to_gp_pnt) pnts) < length pnts)%nat ->
   exists arr,
     to_tcolgp_harray1_pnt pnts n0 = (Ok arr, S n0) /\
     Lower arr = 1 /\
     Length arr = len pnts - len (List.filter (rejected _to_gp_pnt) pnts) /\
     cells arr = omap (kept _to_gp_pnt) pnts /\
     forall i q, omap (kept _to_gp_pnt) pnts !! i = Some q ->
                 Value (1 + Z.of_nat i) arr = Ok q).
Proof.
  split; intros Hret Hlt; pose proof (kept_nonempty _ _ Hret Hlt) as Hne; eexists.
  - split; [apply to_tcolgp_array1_pnt2d_ok; assumption|]. apply (skipping_array _ _ Hret).
  - split; [apply to_tcolgp_harray1_pnt_ok; assumption|]. apply (skipping_array _ _ Hret).
Qed.

Lemma rejected_to_gp_pnt2d p :
  rejected _to_gp_pnt2d p = true <->
  (forall q, p <> Py_gp_Pnt2d q) /\
  is_array_like p && (len (items_of p) =? 2) = false.
Proof.
  unfold rejected.
  destruct p as [ | | | |items|items| |r| ]; simpl;
    try (split; [intros _; split; [discriminate|reflexivity] | reflexivity]).
  - destruct (len items =? 2); simpl.
    + destruct (gp_Pnt2d_new items); simpl; split; try discriminate; intros [_ H]; discriminate.
    + split; [intros _; split; [discriminate|reflexivity] | reflexivity].
  - destruct (len items =? 2); simpl.
    + destruct (gp_Pnt2d_new items); simpl; split; try discriminate; intros [_ H]; discriminate.
    + split; [intros _; split; [discriminate|reflexivity] | reflexivity].
  - split; [discriminate|]. intros [H _]. destruct (H r). reflexivity.
Qed.

End TcolMore.

(** * Properties of the two-dimensional conversions *)

Section Tcol2D.
Import Tcol.

(** A loop that keeps an invariant indexed by the position reached. *)
Lemma for_each_invariant {A St : Type} (Inv : nat -> St -> Prop) (l : list A)
    (body : A -> St -> result St) :
  (forall k x s, l !! k = Some x -> Inv k s ->
                 exists s', body x s = Ok s' /\ Inv (S k) s') ->
  forall s, Inv 0%nat s ->
            exists s', for_each l body s = Ok s' /\ Inv (length l) s'.
Proof.
  revert Inv. induction l as [|x l IH]; intros Inv Hstep s Hs; simpl.
  - eauto.
  - destruct (Hstep 0%nat x s eq_refl Hs) as (s1 & -> & Hs1). simpl.
    apply (IH (fun k => Inv (S k))); [|exact Hs1].
    intros k y t Hy Ht. apply (Hstep (S k) y t Hy Ht).
Qed.

Lemma filled_to_0 {A : Type} (T I : list A) : filled_to 0 T I = I.
Proof. reflexivity. Qed.

Lemma filled_to_all {A : Type} (T I : list A) :
  length T = length I -> filled_to (length T) T I = T.
Proof.
  intros H. unfold filled_to. rewrite firstn_all, drop_ge by lia.
  apply app_nil_r.
Qed.

Lemma length_filled_to {A : Type} (k : nat) (T I : list A) :
  length T = length I -> length (filled_to k T I) = length I.
Proof.
  intros H. unfold filled_to. rewrite length_app, length_take, length_drop. lia.
Qed.

Lemma filled_to_lookup {A : Type} (k : nat) (T I : list A) :
  length T = length I -> filled_to k T I !! k = I !! k.
Proof.
  intros H. unfold filled_to.
  destruct (decide (k < length I)%nat) as [Hk|Hk].
  - rewrite lookup_app_r by (rewrite length_take; lia).
    rewrite length_take, lookup_drop. f_equal. lia.
  - rewrite !lookup_ge_None_2; [reflexivity|lia|].
    rewrite length_app, length_take, length_drop. lia.
Qed.

Lemma filled_to_step {A : Type} (k : nat) (T I : list A) (v : A) :
  length T = length I -> T !! k = Some v ->
  <[k := v]> (filled_to k T I) = filled_to (S k) T I.
Proof.
  intros H Hv. unfold filled_to.
  pose proof (lookup_lt_Some _ _ _ Hv) as Hk.
  destruct (lookup_lt_is_Some_2 I k) as [o Ho]; [lia|].
  rewrite (drop_S _ _ _ Ho), (take_S_r _ _ _ Hv).
  replace k with (length (take k T) + 0)%nat at 1 by (rewrite length_take; lia).
  rewrite insert_app_r. simpl. rewrite <- app_assoc. reflexivity.
Qed.

Lemma range_lookup n k x : range n !! k = Some x -> x = Z.of_nat k /\ (k < Z.to_nat n)%nat.
Proof.
  unfold range. rewrite lookup_map. destruct (seq 0 (Z.to_nat n) !! k) as [y|] eqn:E;
    simpl; [|discriminate].
  apply lookup_seq in E as [-> Hk]. intros [= <-]. split; [reflexivity|exact Hk].
Qed.

Lemma length_range n : length (range n) = Z.to_nat n.
Proof. unfold range. rewrite length_map, length_seq. reflexivity. Qed.

(** Filling one row of a host grid from row [i + 1] of a kernel array. *)
Lemma read_row_ok {A B : Type} (g : A -> B) (a : Array2 A) (i : nat)
    (row : list A) (T I : list (list B)) (Ii : list B) :
  from_one2 a -> rows a !! i = Some row ->
  length T = length I -> T !! i = Some (map g row) -> I !! i = Some Ii ->
  length Ii = length row ->
  for_each (range (RowLength a))
           (fun j array =>
              x <- Value2 (Z.of_nat i + 1) (j + 1) a ;;
              setitem2 (Z.of_nat i) j (g x) array)
           (filled_to i T I)
  = Ok (filled_to (S i) T I).
Proof.
  intros (Hlr & Hlc & Hur & Huc & Hrows) Hrow HTI HT HI HIi.
  assert (Hm : len row = UpperCol a).
  { eapply (proj1 (Forall_forall _ _) Hrows), list_elem_of_lookup_2, Hrow. }
  unfold len in Hm.
  pose proof (lookup_lt_Some _ _ _ Hrow) as Hi.
  destruct (for_each_invariant
              (fun j array => array = <[i := filled_to j (map g row) Ii]> (filled_to i T I))
              (range (RowLength a))
              (fun j array =>
                 x <- Value2 (Z.of_nat i + 1) (j + 1) a ;;
                 setitem2 (Z.of_nat i) j (g x) array)) with (s := filled_to i T I)
    as (s' & Hrun & Hs').
  - intros k x s Hx ->. apply range_lookup in Hx as [-> Hk].
    unfold RowLength in Hk. rewrite Hlc in Hk.
    destruct (lookup_lt_is_Some_2 row k) as [c Hc]; [lia|].
    unfold Value2. rewrite Hlr, Hlc, Hur. unfold len.
    replace ((1 <=? Z.of_nat i + 1) && (Z.of_nat i + 1 <=? Z.of_nat (length (rows a))) &&
             (1 <=? Z.of_nat k + 1) && (Z.of_nat k + 1 <=? UpperCol a))
      with true
      by (symmetry; rewrite !andb_true_iff; repeat split; apply Z.leb_le; lia).
    replace (Z.to_nat (Z.of_nat i + 1 - 1)) with i by lia.
    replace (Z.to_nat (Z.of_nat k + 1 - 1)) with k by lia.
    rewrite Hrow, Hc. simpl. unfold setitem2. rewrite !Nat2Z.id.
    rewrite list_lookup_insert_eq
      by (rewrite length_filled_to by exact HTI; eapply lookup_lt_Some, HI).
    unfold len. rewrite length_filled_to by (rewrite length_map; lia).
    replace ((0 <=? Z.of_nat i) && (0 <=? Z.of_nat k) && (Z.of_nat k <? Z.of_nat (length Ii)))
      with true
      by (symmetry; rewrite !andb_true_iff; repeat split;
          [apply Z.leb_le; lia | apply Z.leb_le; lia | apply Z.ltb_lt; lia]).
    eexists. split; [reflexivity|].
    rewrite list_insert_insert_eq. f_equal.
    apply filled_to_step; [rewrite length_map; lia|].
    rewrite lookup_map, Hc. reflexivity.
  - rewrite filled_to_0. symmetry. apply list_insert_id.
    rewrite filled_to_lookup by exact HTI. exact HI.
  - rewrite Hrun. f_equal. rewrite Hs'. rewrite length_range.
    unfold RowLength. rewrite Hlc.
    replace (Z.to_nat (UpperCol a - 1 + 1)) with (length (map g row))
      by (rewrite length_map; lia).
    rewrite filled_to_all by (rewrite length_map; lia).
    apply filled_to_step; assumption.
Qed.

Lemma read_grid_ok {A B : Type} (g : A -> B) (z : B) (a : Array2 A) :
  from_one2 a ->
  for_each (range (ColLength a))
           (fun i array =>
              for_each (range (RowLength a))
                       (fun j array =>
                          x <- Value2 (i + 1) (j + 1) a ;;
                          setitem2 i j (g x) array) array)
           (replicate (Z.to_nat (ColLength a)) (replicate (Z.to_nat (RowLength a)) z))
  = Ok (map (map g) (rows a)).
Proof.
  intros Ha. pose proof Ha as (Hlr & Hlc & Hur & Huc & Hrows).
  set (T := map (map g) (rows a)).
  set (I := replicate (Z.to_nat (ColLength a)) (replicate (Z.to_nat (RowLength a)) z)).
  assert (Hn : Z.to_nat (ColLength a) = length (rows a)).
  { unfold ColLength, len in *. lia. }
  assert (HTI : length T = length I).
  { unfold T, I. rewrite length_map, length_replicate. lia. }
  destruct (for_each_invariant
              (fun i array => array = filled_to i T I)
              (range (ColLength a))
              (fun i array =>
                 for_each (range (RowLength a))
                          (fun j array =>
                             x <- Value2 (i + 1) (j + 1) a ;;
                             setitem2 i j (g x) array) array)) with (s := I)
    as (s' & Hrun & Hs').
  - intros k x s Hx ->. apply range_lookup in Hx as [-> Hk].
    destruct (lookup_lt_is_Some_2 (rows a) k) as [row Hrow]; [lia|].
    eexists. split; [|reflexivity].
    apply (read_row_ok g a k row T I (replicate (Z.to_nat (RowLength a)) z));
      try assumption.
    + unfold T. rewrite lookup_map, Hrow. reflexivity.
    + unfold I. apply lookup_replicate_2. lia.
    + rewrite length_replicate. unfold RowLength. rewrite Hlc.
      assert (Hm : len row = UpperCol a).
      { eapply (proj1 (Forall_forall _ _) Hrows), list_elem_of_lookup_2, Hrow. }
      unfold len in Hm. lia.
  - reflexivity.
  - rewrite Hrun. f_equal. rewrite Hs', length_range, Hn.
    replace (length (rows a)) with (length T) by (unfold T; apply length_map).
    apply filled_to_all, HTI.
Qed.

(** The grid readers on an array that starts at 1, 1. *)
Lemma array2_readers_ok :
  (forall a : Array2 float, from_one2 a ->
     to_np_from_tcolstd_array2_real a = Ok (rows a)) /\
  (forall a : Array2 gp_Pnt, from_one2 a ->
     to_np_from_tcolgp_array2_pnt a = Ok (map (map coords) (rows a))).
Proof.
  assert (Hpos : forall (A : Type) (a : Array2 A), from_one2 a ->
            (ColLength a <? 0) = false /\ (RowLength a <? 0) = false).
  { intros A a (Hlr & Hlc & Hur & Huc & _). unfold ColLength, RowLength, len in *.
    split; apply Z.ltb_ge; lia. }
  split; intros a Ha; destruct (Hpos _ a Ha) as [Hn Hm].
  - unfold to_np_from_tcolstd_array2_real, zeros2, zeros. rewrite Hn, Hm. simpl.
    pose proof (read_grid_ok (fun x : float => x) 0%float a Ha) as H.
    rewrite H. f_equal. rewrite <- (map_id_eq (rows a)) at 2.
    apply map_ext. intros row. apply map_id_eq.
  - unfold to_np_from_tcolgp_array2_pnt, zeros3, zeros2, zeros. rewrite Hn, Hm. simpl.
    apply (read_grid_ok coords [0%float; 0%float; 0%float] a Ha).
Qed.

Lemma Value2_cell {A : Type} (a : Array2 A) (i j : nat) (v : A) :
  LowerRow a = 1 -> LowerCol a = 1 ->
  Value2 (Z.of_nat i + 1) (Z.of_nat j + 1) a = Ok v ->
  exists row, rows a !! i = Some row /\ row !! j = Some v.
Proof.
  intros Hlr Hlc. unfold Value2. rewrite Hlr, Hlc.
  destruct (_ && _); [|discriminate].
  replace (Z.to_nat (Z.of_nat i + 1 - 1)) with i by lia.
  replace (Z.to_nat (Z.of_nat j + 1 - 1)) with j by lia.
  destruct (rows a !! i) as [row|]; [|discriminate].
  destruct (row !! j) eqn:E; [|discriminate].
  intros [= <-]. eauto.
Qed.

(** X12: the two readers of two-dimensional arrays, run on any array with
    lower bounds 1, return a grid with as many rows as the array, entry
    [i, j] being what [Value(i + 1, j + 1)] gives (for points, its three
    coordinates). *)
Theorem grid_readers_keep_every_cell :
  (forall a : Array2 float, from_one2 a ->
     exists out, to_np_from_tcolstd_array2_real a = Ok out /\
       len out = ColLength a /\
       forall i j v, Value2 (Z.of_nat i + 1) (Z.of_nat j + 1) a = Ok v ->
                     exists row, out !! i = Some row /\ row !! j = Some v) /\
  (forall a : Array2 gp_Pnt, from_one2 a ->
     exists out, to_np_from_tcolgp_array2_pnt a = Ok out /\
       len out = ColLength a /\
       forall i j p, Value2 (Z.of_nat i + 1) (Z.of_nat j + 1) a = Ok p ->
                     exists row, out !! i = Some row /\
                                 row !! j = Some [Pnt_X p; Pnt_Y p; Pnt_Z p]).
Proof.
  destruct array2_readers_ok as (Hreal & Hpnt).
  assert (Hlen : forall (A : Type) (a : Array2 A), from_one2 a ->
            len (rows a) = ColLength a).
  { intros A a (Hlr & _ & Hur & _). unfold ColLength, len in *. lia. }
  split; intros a Ha; pose proof Ha as (Hlr & Hlc & _).
  - exists (rows a). split; [apply Hreal, Ha|]. split; [apply Hlen, Ha|].
    intros i j v. apply Value2_cell; assumption.
  - exists (map (map coords) (rows a)). split; [apply Hpnt, Ha|].
    split; [unfold len; rewrite length_map; apply Hlen, Ha|].
    intros i j p Hp.
    destruct (Value2_cell _ _ _ _ Hlr Hlc Hp) as (row & Hrow & Hcell).
    exists (map coords row).
    split; [rewrite lookup_map, Hrow | rewrite lookup_map, Hcell]; reflexivity.
Qed.

Lemma alter_lookup {A : Type} (f : A -> A) (l : list A) (i : nat) (r : A) :
  l !! i = Some r -> alter f i l = <[i := f r]> l.
Proof.
  revert i. induction l as [|x l IH]; intros [|i]; simpl; try discriminate.
  - intros [= ->]. reflexivity.
  - intros H. f_equal. apply IH, H.
Qed.

Lemma range_from_lookup a b k x :
  range_from a b !! k = Some x -> x = a + Z.of_nat k /\ (k < Z.to_nat (b - a))%nat.
Proof.
  unfold range_from. rewrite lookup_map.
  destruct (seq 0 (Z.to_nat (b - a)) !! k) as [y|] eqn:E; simpl; [|discriminate].
  apply lookup_seq in E as [-> Hk]. intros [= <-]. split; [reflexivity|exact Hk].
Qed.

Lemma length_range_from a b : length (range_from a b) = Z.to_nat (b - a).
Proof. unfold range_from. rewrite length_map, length_seq. reflexivity. Qed.

(** What [np_array] makes of a sequence whose items it converts. *)
Lemma np_array_list float_of_string items subs :
  Forall2 (fun x a => np_array float_of_string x = Ok a) items subs ->
  np_array float_of_string (PyList items)
  = match subs with
    | [] => Ok (NdArray [])
    | a :: _ =>
        if forallb (fun b => bool_decide (shape b = shape a)) subs
        then Ok (NdArray subs)
        else Raise ValueError
    end.
Proof.
  intros H. simpl.
  match goal with |- rbind (?each items) _ = _ =>
    assert (Heach : each items = Ok subs) end.
  { induction H as [|x a items subs Hx _ IH]; [reflexivity|].
    rewrite Hx. simpl. rewrite IH. reflexivity. }
  rewrite Heach. reflexivity.
Qed.

Lemma forallb_same_shape (s : list nat) (subs : list ndarray) :
  Forall (fun b => shape b = s) subs ->
  forallb (fun b => bool_decide (shape b = s)) subs = true.
Proof.
  induction 1 as [|b subs Hb _ IH]; simpl; [reflexivity|].
  rewrite IH, andb_true_r. apply bool_decide_eq_true_2, Hb.
Qed.

Lemma np_array_uniform float_of_string items subs s :
  Forall2 (fun x a => np_array float_of_string x = Ok a) items subs ->
  Forall (fun b => shape b = s) subs ->
  np_array float_of_string (PyList items) = Ok (NdArray subs).
Proof.
  intros H Hs. rewrite (np_array_list _ _ _ H).
  destruct subs as [|a subs]; [reflexivity|].
  assert (Ha : shape a = s) by (inversion Hs; assumption).
  rewrite Ha, (forallb_same_shape s) by exact Hs. reflexivity.
Qed.

Lemma shape_nd_row row : shape (nd_row row) = [length row].
Proof. destruct row; simpl; rewrite ?length_map; reflexivity. Qed.

Lemma np_array_real_row float_of_string (row : list float) :
  np_array float_of_string (PyList (map PyFloat row)) = Ok (nd_row row).
Proof.
  apply (np_array_uniform _ _ _ []).
  - induction row as [|v row IHr]; simpl; constructor; [reflexivity|exact IHr].
  - induction row as [|v row IHr]; simpl; constructor; [reflexivity|exact IHr].
Qed.

Lemma np_array_real_grid float_of_string (g : list (list float)) (m : nat) :
  Forall (fun row => length row = m) g ->
  np_array float_of_string (real_grid g) = Ok (nd_grid g).
Proof.
  intros Hg. unfold real_grid, nd_grid.
  apply (np_array_uniform _ _ _ [m]).
  - induction g as [|row g IH]; simpl; constructor.
    + apply np_array_real_row.
    + apply IH. inversion Hg; assumption.
  - induction Hg as [|row g Hrow _ IH]; simpl; constructor; [|exact IH].
    rewrite shape_nd_row, Hrow. reflexivity.
Qed.

Lemma shape_nd_grid (g : list (list float)) (m : nat) :
  rectangular m g -> shape (nd_grid g) = [length g; m].
Proof.
  intros [Hne Hg]. destruct g as [|row g]; [congruence|].
  unfold nd_grid. cbn [map shape length]. rewrite length_map.
  rewrite shape_nd_row. inversion Hg; subst. reflexivity.
Qed.

Lemma item2_nd_grid (g : list (list float)) (i j : nat) row c :
  g !! i = Some row -> row !! j = Some c ->
  item2 (nd_grid g) (Z.of_nat i) (Z.of_nat j) = Ok (NdScalar c).
Proof.
  intros Hi Hj. unfold item2, nd_grid. rewrite !Nat2Z.id.
  rewrite lookup_map, Hi. simpl. rewrite lookup_map, Hj. reflexivity.
Qed.

(** Writing one row of a kernel array of reals. *)
Lemma write_row_real_ok (g I : list (list float)) (n m : nat) (i : nat)
    (row Ii : list float) :
  length g = n -> length I = n -> g !! i = Some row -> I !! i = Some Ii ->
  length row = m -> length Ii = m ->
  for_each (range_from 1 (Z.of_nat m + 1))
           (fun j array =>
              item <- item2 (nd_grid g) (1 + Z.of_nat i - 1) (j - 1) ;;
              x <- float_of_item item ;;
              SetValue2_real (1 + Z.of_nat i) j x array)
           (mk_Array2 1 (Z.of_nat n) 1 (Z.of_nat m) (filled_to i g I))
  = Ok (mk_Array2 1 (Z.of_nat n) 1 (Z.of_nat m) (filled_to (S i) g I)).
Proof.
  intros Hg HI Hrow HIi Hm HmI.
  pose proof (lookup_lt_Some _ _ _ Hrow) as Hi.
  destruct (for_each_invariant
              (fun j array => array = mk_Array2 1 (Z.of_nat n) 1 (Z.of_nat m)
                                        (<[i := filled_to j row Ii]> (filled_to i g I)))
              (range_from 1 (Z.of_nat m + 1))
              (fun j array =>
                 item <- item2 (nd_grid g) (1 + Z.of_nat i - 1) (j - 1) ;;
                 x <- float_of_item item ;;
                 SetValue2_real (1 + Z.of_nat i) j x array))
    with (s := mk_Array2 1 (Z.of_nat n) 1 (Z.of_nat m) (filled_to i g I))
    as (s' & Hrun & Hs').
  - intros k x s Hx ->. apply range_from_lookup in Hx as [-> Hk].
    destruct (lookup_lt_is_Some_2 row k) as [c Hc]; [lia|].
    replace (1 + Z.of_nat i - 1) with (Z.of_nat i) by lia.
    replace (1 + Z.of_nat k - 1) with (Z.of_nat k) by lia.
    rewrite (item2_nd_grid g i k row c Hrow Hc). simpl.
    unfold SetValue2_real. simpl.
    replace ((1 <=? 1 + Z.of_nat i) && (1 + Z.of_nat i <=? Z.of_nat n) &&
             (1 <=? 1 + Z.of_nat k) && (1 + Z.of_nat k <=? Z.of_nat m))
      with true
      by (symmetry; rewrite !andb_true_iff; repeat split; apply Z.leb_le; lia).
    replace (Z.to_nat (1 + Z.of_nat i - 1)) with i by lia.
    replace (Z.to_nat (1 + Z.of_nat k - 1)) with k by lia.
    eexists. split; [reflexivity|]. f_equal.
    rewrite (alter_lookup _ _ _ (filled_to k row Ii))
      by (apply list_lookup_insert_eq; rewrite length_filled_to; lia).
    rewrite list_insert_insert_eq. f_equal.
    apply filled_to_step; [lia|exact Hc].
  - rewrite filled_to_0. f_equal. symmetry. apply list_insert_id.
    rewrite filled_to_lookup by lia. exact HIi.
  - rewrite Hrun. f_equal. rewrite Hs'. f_equal.
    rewrite length_range_from.
    replace (Z.to_nat (Z.of_nat m + 1 - 1)) with (length row) by lia.
    rewrite filled_to_all by lia. apply filled_to_step; [lia|exact Hrow].
Qed.

(** The grid conversions on rectangular grids. *)
Lemma grid_bounds_accepted {A : Type} (g : list (list A)) (m : nat) :
  g <> [] -> (0 < m)%nat ->
  (Z.of_nat (length g) <? 1) || (Z.of_nat m <? 1) = false.
Proof.
  intros Hne Hm. apply orb_false_iff.
  split; apply Z.ltb_ge; [destruct g; [congruence | simpl; lia] | lia].
Qed.

Lemma to_tcolstd_array2_real_ok float_of_string (g : list (list float)) (m : nat) n0 :
  rectangular m g -> (0 < m)%nat ->
  to_tcolstd_array2_real float_of_string (real_grid g) n0
  = (Ok (mk_Array2 1 (len g) 1 (Z.of_nat m) g), S n0).
Proof.
  intros Hrect Hm. pose proof Hrect as [Hne Hg].
  unfold to_tcolstd_array2_real, mbind, lift.
  rewrite (np_array_real_grid _ g m Hg).
  unfold shape_pair. rewrite (shape_nd_grid g m Hrect).
  unfold TColStd_Array2OfReal. unfold len.
  rewrite (grid_bounds_accepted g m Hne Hm).
  replace (Z.to_nat (Z.of_nat (length g) - 1 + 1)) with (length g) by lia.
  replace (Z.to_nat (Z.of_nat m - 1 + 1)) with m by lia.
  set (I := replicate (length g) (replicate m 0%float)).
  destruct (for_each_invariant
              (fun i array => array = mk_Array2 1 (Z.of_nat (length g)) 1 (Z.of_nat m)
                                        (filled_to i g I))
              (range_from 1 (Z.of_nat (length g) + 1))
              (fun i array =>
                 for_each (range_from 1 (Z.of_nat m + 1))
                          (fun j array =>
                             item <- item2 (nd_grid g) (i - 1) (j - 1) ;;
                             x <- float_of_item item ;;
                             SetValue2_real i j x array) array))
    with (s := mk_Array2 1 (Z.of_nat (length g)) 1 (Z.of_nat m) I)
    as (s' & Hrun & Hs').
  - intros k x s Hx ->. apply range_from_lookup in Hx as [-> Hk].
    destruct (lookup_lt_is_Some_2 g k) as [row Hrow]; [lia|].
    eexists. split; [|reflexivity].
    apply (write_row_real_ok g I (length g) m k row (replicate m 0%float));
      try reflexivity; try assumption.
    + unfold I. apply length_replicate.
    + unfold I. apply lookup_replicate_2. lia.
    + eapply (proj1 (Forall_forall _ _) Hg), list_elem_of_lookup_2, Hrow.
    + apply length_replicate.
  - reflexivity.
  - rewrite Hrun, Hs'. rewrite length_range_from.
    replace (Z.to_nat (Z.of_nat (length g) + 1 - 1)) with (length g) by lia.
    rewrite filled_to_all by (unfold I; rewrite length_replicate; reflexivity).
    reflexivity.
Qed.

Lemma to_tcolstd_array2_real_refused float_of_string (g : list (list float)) n0 :
  rectangular 0 g ->
  to_tcolstd_array2_real float_of_string (real_grid g) n0
  = (Raise Standard_RangeError, n0).
Proof.
  intros Hrect. pose proof Hrect as [Hne Hg].
  unfold to_tcolstd_array2_real, mbind, lift.
  rewrite (np_array_real_grid _ g 0 Hg).
  unfold shape_pair. rewrite (shape_nd_grid g 0 Hrect).
  unfold TColStd_Array2OfReal. rewrite orb_true_r. reflexivity.
Qed.

Lemma Value2_of_grid {A : Type} (g : list (list A)) (n m : Z) (i j : nat) row c :
  n = len g -> Forall (fun row => len row = m) g ->
  g !! i = Some row -> row !! j = Some c ->
  Value2 (Z.of_nat i + 1) (Z.of_nat j + 1) (mk_Array2 1 n 1 m g) = Ok c.
Proof.
  intros -> Hg Hrow Hc. unfold Value2. simpl.
  pose proof (lookup_lt_Some _ _ _ Hrow) as Hi.
  pose proof (lookup_lt_Some _ _ _ Hc) as Hj.
  assert (Hm : len row = m).
  { eapply (proj1 (Forall_forall _ _) Hg), list_elem_of_lookup_2, Hrow. }
  unfold len in *.
  replace ((1 <=? Z.of_nat i + 1) && (Z.of_nat i + 1 <=? Z.of_nat (length g)) &&
           (1 <=? Z.of_nat j + 1) && (Z.of_nat j + 1 <=? m))
    with true
    by (symmetry; rewrite !andb_true_iff; repeat split; apply Z.leb_le; lia).
  replace (Z.to_nat (Z.of_nat i + 1 - 1)) with i by lia.
  replace (Z.to_nat (Z.of_nat j + 1 - 1)) with j by lia.
  rewrite Hrow, Hc. reflexivity.
Qed.

Lemma rectangular_rows {A : Type} (m : nat) (g : list (list A)) :
  rectangular m g -> Forall (fun row => len row = Z.of_nat m) g.
Proof.
  intros [_ Hg]. eapply Forall_impl; [exact Hg|].
  intros row Hrow. unfold len. simpl in *. lia.
Qed.

(** X13: a grid of floats with n >= 1 rows of equal length m >= 1 becomes
    one array with bounds 1..n by 1..m, and [Value(i + 1, j + 1)] of it is
    entry [i, j] of the grid.  A grid whose rows are empty (m = 0) is not
    converted: the array constructor refuses the column range 1..0 and no
    array is created. *)
Theorem real_grid_conversion float_of_string (g : list (list float)) (m : nat) n0 :
  rectangular m g ->
  ((0 < m)%nat ->
   exists arr,
     to_tcolstd_array2_real float_of_string (real_grid g) n0 = (Ok arr, S n0) /\
     LowerRow arr = 1 /\ UpperRow arr = len g /\
     LowerCol arr = 1 /\ UpperCol arr = Z.of_nat m /\
     forall i j row c, g !! i = Some row -> row !! j = Some c ->
                       Value2 (Z.of_nat i + 1) (Z.of_nat j + 1) arr = Ok c) /\
  (m = 0%nat ->
   to_tcolstd_array2_real float_of_string (real_grid g) n0
   = (Raise Standard_RangeError, n0)).
Proof.
  intros Hrect. split.
  - intros Hm. exists (mk_Array2 1 (len g) 1 (Z.of_nat m) g).
    split; [apply to_tcolstd_array2_real_ok; assumption|].
    repeat (split; [reflexivity|]).
    intros i j row c. apply Value2_of_grid; [reflexivity|].
    apply rectangular_rows, Hrect.
  - intros ->. apply to_tcolstd_array2_real_refused, Hrect.
Qed.

Lemma enumerate_lookup {A : Type} (xs : list A) (start : Z) (k : nat) (i : Z) (x : A) :
  enumerate xs start !! k = Some (i, x) -> i = start + Z.of_nat k /\ xs !! k = Some x.
Proof.
  revert start k. induction xs as [|y xs IH]; intros start [|k]; simpl; try discriminate.
  - intros [= <- <-]. split; [lia|reflexivity].
  - intros H. apply IH in H as [-> H]. split; [lia|exact H].
Qed.

Lemma length_enumerate {A : Type} (xs : list A) (start : Z) :
  length (enumerate xs start) = length xs.
Proof. revert start. induction xs; intros start; simpl; auto. Qed.

Lemma shape_nd_point_row (row : list gp_Pnt) :
  shape (nd_point_row row) = length row :: match row with [] => [] | _ => [3%nat] end.
Proof. destruct row; cbn [nd_point_row map shape length]; rewrite ?length_map; reflexivity. Qed.

Lemma np_array_point_row float_of_string (row : list gp_Pnt) :
  np_array float_of_string (PyList (map triple row)) = Ok (nd_point_row row).
Proof.
  apply (np_array_uniform _ _ _ [3%nat]).
  - induction row as [|q row IHr]; simpl; constructor; [reflexivity|exact IHr].
  - induction row as [|q row IHr]; simpl; constructor; [reflexivity|exact IHr].
Qed.

Lemma np_array_point_grid float_of_string (g : list (list gp_Pnt)) (m : nat) :
  Forall (fun row => length row = m) g ->
  np_array float_of_string (point_grid g) = Ok (nd_point_grid g).
Proof.
  intros Hg. unfold point_grid, nd_point_grid.
  apply (np_array_uniform _ _ _ (m :: match m with O => [] | _ => [3%nat] end)).
  - clear Hg. induction g as [|row g IH]; simpl; constructor;
      [apply np_array_point_row|exact IH].
  - induction Hg as [|row g Hrow _ IH]; simpl; constructor; [|exact IH].
    rewrite shape_nd_point_row, Hrow. destruct row, m; simpl in *; congruence.
Qed.

Lemma shape2_nd_point_grid (g : list (list gp_Pnt)) (m : nat) :
  rectangular m g -> shape2 (nd_point_grid g) = Ok (len g, Z.of_nat m).
Proof.
  intros [Hne Hg]. destruct g as [|row g]; [congruence|].
  unfold shape2, nd_point_grid. cbn [map shape length]. rewrite length_map.
  rewrite shape_nd_point_row. inversion Hg; subst. reflexivity.
Qed.

Lemma item2_nd_point_grid (g : list (list gp_Pnt)) (i j : nat) row c :
  g !! i = Some row -> row !! j = Some c ->
  item2 (nd_point_grid g) (Z.of_nat i) (Z.of_nat j) = Ok (nd_point c).
Proof.
  intros Hi Hj. unfold item2, nd_point_grid. rewrite !Nat2Z.id.
  rewrite lookup_map, Hi. simpl. rewrite lookup_map, Hj. reflexivity.
Qed.

Lemma to_gp_pnt_nd_point (c : gp_Pnt) :
  _to_gp_pnt (as_pyobj (nd_point c)) = Ok (Some c).
Proof. destruct c. reflexivity. Qed.

(** The collecting loops of the grid conversion: every entry of the array
    goes through the helper, and what the helper answers is kept, [None]
    included. *)
Lemma gather_cells_ok {X : Type} (a : ndarray) (cell : X -> ndarray)
    (out : X -> option gp_Pnt) (g : list (list X)) (m : nat) :
  Forall (fun row => length row = m) g ->
  (forall i j row c, g !! i = Some row -> row !! j = Some c ->
                     item2 a (Z.of_nat i) (Z.of_nat j) = Ok (cell c)) ->
  (forall c, _to_gp_pnt (as_pyobj (cell c)) = Ok (out c)) ->
  for_each (range (len g))
    (fun i gp_pnts =>
       row <- for_each (range (Z.of_nat m))
                (fun j row =>
                   x <- item2 a i j ;;
                   gp <- _to_gp_pnt (as_pyobj x) ;;
                   Ok (row ++ [gp])) [] ;;
       Ok (gp_pnts ++ [row])) []
  = Ok (map (map out) g).
Proof.
  intros Hg Hitem Hout.
  destruct (for_each_invariant
              (fun i gp_pnts => gp_pnts = take i (map (map out) g))
              (range (len g))
              (fun i gp_pnts =>
                 row <- for_each (range (Z.of_nat m))
                          (fun j row =>
                             x <- item2 a i j ;;
                             gp <- _to_gp_pnt (as_pyobj x) ;;
                             Ok (row ++ [gp])) [] ;;
                 Ok (gp_pnts ++ [row]))) with (s := @nil (list (option gp_Pnt)))
    as (s' & Hrun & Hs').
  - intros k x s Hx ->. apply range_lookup in Hx as [-> Hk]. unfold len in Hk.
    destruct (lookup_lt_is_Some_2 g k) as [row Hrow]; [lia|].
    assert (Hm : length row = m).
    { eapply (proj1 (Forall_forall _ _) Hg), list_elem_of_lookup_2, Hrow. }
    destruct (for_each_invariant
                (fun j acc => acc = take j (map out row))
                (range (Z.of_nat m))
                (fun j acc =>
                   x <- item2 a (Z.of_nat k) j ;;
                   gp <- _to_gp_pnt (as_pyobj x) ;;
                   Ok (acc ++ [gp]))) with (s := @nil (option gp_Pnt))
      as (r & Hrow_run & Hr).
    + intros j x s Hx ->. apply range_lookup in Hx as [-> Hj].
      destruct (lookup_lt_is_Some_2 row j) as [c Hc]; [lia|].
      rewrite (Hitem k j row c Hrow Hc). cbn [rbind].
      rewrite Hout. cbn [rbind]. eexists. split; [reflexivity|].
      symmetry. apply take_S_r. rewrite lookup_map, Hc. reflexivity.
    + reflexivity.
    + rewrite Hrow_run. simpl. eexists. split; [reflexivity|].
      rewrite Hr, length_range, Nat2Z.id, <- Hm.
      rewrite <- (length_map out row), firstn_all.
      symmetry. apply take_S_r. rewrite lookup_map, Hrow. reflexivity.
  - reflexivity.
  - rewrite Hrun, Hs', length_range. unfold len. rewrite Nat2Z.id.
    rewrite <- (length_map (map out) g), firstn_all. reflexivity.
Qed.

Lemma gather_grid_ok (g : list (list gp_Pnt)) (m : nat) :
  Forall (fun row => length row = m) g ->
  for_each (range (len g))
    (fun i gp_pnts =>
       row <- for_each (range (Z.of_nat m))
                (fun j row =>
                   x <- item2 (nd_point_grid g) i j ;;
                   gp <- _to_gp_pnt (as_pyobj x) ;;
                   Ok (row ++ [gp])) [] ;;
       Ok (gp_pnts ++ [row])) []
  = Ok (map (map Some) g).
Proof.
  intros Hg. apply (gather_cells_ok (nd_point_grid g) nd_point Some g m Hg).
  - apply item2_nd_point_grid.
  - apply to_gp_pnt_nd_point.
Qed.

(** Writing one collected row to a kernel array of points. *)
Lemma write_row_point_ok (g I : list (list gp_Pnt)) (n m : nat) (i : nat)
    (row Ii : list gp_Pnt) :
  length g = n -> length I = n -> g !! i = Some row -> I !! i = Some Ii ->
  length row = m -> length Ii = m ->
  for_each (enumerate (map Some row) 1)
           (fun '(j, gp) array => SetValue2 (1 + Z.of_nat i) j gp array)
           (mk_Array2 1 (Z.of_nat n) 1 (Z.of_nat m) (filled_to i g I))
  = Ok (mk_Array2 1 (Z.of_nat n) 1 (Z.of_nat m) (filled_to (S i) g I)).
Proof.
  intros Hg HI Hrow HIi Hm HmI.
  pose proof (lookup_lt_Some _ _ _ Hrow) as Hi.
  destruct (for_each_invariant
              (fun j array => array = mk_Array2 1 (Z.of_nat n) 1 (Z.of_nat m)
                                        (<[i := filled_to j row Ii]> (filled_to i g I)))
              (enumerate (map Some row) 1)
              (fun '(j, gp) array => SetValue2 (1 + Z.of_nat i) j gp array))
    with (s := mk_Array2 1 (Z.of_nat n) 1 (Z.of_nat m) (filled_to i g I))
    as (s' & Hrun & Hs').
  - intros k [j gp] s Hx ->. apply enumerate_lookup in Hx as [-> Hgp].
    rewrite lookup_map in Hgp.
    destruct (row !! k) as [c|] eqn:Hc; simpl in Hgp; [|discriminate].
    injection Hgp as <-.
    pose proof (lookup_lt_Some _ _ _ Hc) as Hk.
    unfold SetValue2. simpl.
    replace ((1 <=? 1 + Z.of_nat i) && (1 + Z.of_nat i <=? Z.of_nat n) &&
             (1 <=? 1 + Z.of_nat k) && (1 + Z.of_nat k <=? Z.of_nat m))
      with true
      by (symmetry; rewrite !andb_true_iff; repeat split; apply Z.leb_le; lia).
    replace (Z.to_nat (1 + Z.of_nat i - 1)) with i by lia.
    replace (Z.to_nat (1 + Z.of_nat k - 1)) with k by lia.
    eexists. split; [reflexivity|]. f_equal.
    rewrite (alter_lookup _ _ _ (filled_to k row Ii))
      by (apply list_lookup_insert_eq; rewrite length_filled_to; lia).
    rewrite list_insert_insert_eq. f_equal.
    apply filled_to_step; [lia|exact Hc].
  - rewrite filled_to_0. f_equal. symmetry. apply list_insert_id.
    rewrite filled_to_lookup by lia. exact HIi.
  - rewrite Hrun. f_equal. rewrite Hs'. f_equal.
    rewrite length_enumerate, length_map.
    rewrite filled_to_all by lia. apply filled_to_step; [lia|exact Hrow].
Qed.

Lemma to_tcolgp_array2_pnt_refused float_of_string (g : list (list gp_Pnt)) n0 :
  rectangular 0 g ->
  to_tcolgp_array2_pnt float_of_string (point_grid g) n0
  = (Raise Standard_RangeError, n0).
Proof.
  intros Hrect. pose proof Hrect as [Hne Hg].
  unfold to_tcolgp_array2_pnt, mbind, lift.
  rewrite (np_array_point_grid _ g 0 Hg), (shape2_nd_point_grid g 0 Hrect).
  rewrite (gather_grid_ok g 0 Hg).
  unfold TColgp_Array2OfPnt. rewrite orb_true_r. reflexivity.
Qed.

Lemma to_tcolgp_array2_pnt_ok float_of_string (g : list (list gp_Pnt)) (m : nat) n0 :
  rectangular m g -> (0 < m)%nat ->
  to_tcolgp_array2_pnt float_of_string (point_grid g) n0
  = (Ok (mk_Array2 1 (len g) 1 (Z.of_nat m) g), S n0).
Proof.
  intros Hrect Hm. pose proof Hrect as [Hne Hg].
  unfold to_tcolgp_array2_pnt, mbind, lift.
  rewrite (np_array_point_grid _ g m Hg), (shape2_nd_point_grid g m Hrect).
  rewrite (gather_grid_ok g m Hg).
  unfold TColgp_Array2OfPnt. unfold len.
  rewrite (grid_bounds_accepted g m Hne Hm).
  replace (Z.to_nat (Z.of_nat (length g) - 1 + 1)) with (length g) by lia.
  replace (Z.to_nat (Z.of_nat m - 1 + 1)) with m by lia.
  set (I := replicate (length g) (replicate m origin)).
  destruct (for_each_invariant
              (fun i array => array = mk_Array2 1 (Z.of_nat (length g)) 1 (Z.of_nat m)
                                        (filled_to i g I))
              (enumerate (map (map Some) g) 1)
              (fun '(i, row) array =>
                 for_each (enumerate row 1)
                          (fun '(j, gp) array => SetValue2 i j gp array) array))
    with (s := mk_Array2 1 (Z.of_nat (length g)) 1 (Z.of_nat m) I)
    as (s' & Hrun & Hs').
  - intros k [i orow] s Hx ->. apply enumerate_lookup in Hx as [-> Horow].
    rewrite lookup_map in Horow.
    destruct (g !! k) as [row|] eqn:Hrow; simpl in Horow; [|discriminate].
    injection Horow as <-.
    pose proof (lookup_lt_Some _ _ _ Hrow) as Hk.
    eexists. split; [|reflexivity].
    apply (write_row_point_ok g I (length g) m k row (replicate m origin));
      try reflexivity; try assumption.
    + unfold I. apply length_replicate.
    + unfold I. apply lookup_replicate_2. lia.
    + eapply (proj1 (Forall_forall _ _) Hg), list_elem_of_lookup_2, Hrow.
    + apply length_replicate.
  - reflexivity.
  - rewrite Hrun, Hs'. rewrite length_enumerate, length_map.
    rewrite filled_to_all by (unfold I; rewrite length_replicate; reflexivity).
    reflexivity.
Qed.

(** X14: a grid of coordinate triples with n >= 1 rows of equal length
    m >= 1 becomes one array of points with bounds 1..n by 1..m, and
    [Value(i + 1, j + 1)] of it is the point of entry [i, j].  A grid whose
    rows are empty (m = 0) is not converted: the array constructor refuses
    the column range 1..0 and no array is created. *)
Theorem point_grid_conversion float_of_string (g : list (list gp_Pnt)) (m : nat) n0 :
  rectangular m g ->
  ((0 < m)%nat ->
   exists arr,
     to_tcolgp_array2_pnt float_of_string (point_grid g) n0 = (Ok arr, S n0) /\
     LowerRow arr = 1 /\ UpperRow arr = len g /\
     LowerCol arr = 1 /\ UpperCol arr = Z.of_nat m /\
     forall i j row c, g !! i = Some row -> row !! j = Some c ->
                       Value2 (Z.of_nat i + 1) (Z.of_nat j + 1) arr = Ok c) /\
  (m = 0%nat ->
   to_tcolgp_array2_pnt float_of_string (point_grid g) n0
   = (Raise Standard_RangeError, n0)).
Proof.
  intros Hrect. split.
  - intros Hm. exists (mk_Array2 1 (len g) 1 (Z.of_nat m) g).
    split; [apply to_tcolgp_array2_pnt_ok; assumption|].
    repeat (split; [reflexivity|]).
    intros i j row c. apply Value2_of_grid; [reflexivity|].
    apply rectangular_rows, Hrect.
  - intros ->. apply to_tcolgp_array2_pnt_refused, Hrect.
Qed.

(** X15: grids survive the round trip: a grid of floats with n >= 1 rows of
    equal length m >= 1, converted to a kernel array and read back, is the
    grid itself, and such a grid of coordinate triples comes back as the
    grid of the same coordinates. *)
Theorem grid_round_trip float_of_string n0 :
  (forall (g : list (list float)) (m : nat), rectangular m g -> (0 < m)%nat ->
     exists arr,
       to_tcolstd_array2_real float_of_string (real_grid g) n0 = (Ok arr, S n0) /\
       to_np_from_tcolstd_array2_real arr = Ok g) /\
  (forall (g : list (list gp_Pnt)) (m : nat), rectangular m g -> (0 < m)%nat ->
     exists arr,
       to_tcolgp_array2_pnt float_of_string (point_grid g) n0 = (Ok arr, S n0) /\
       to_np_from_tcolgp_array2_pnt arr = Ok (map (map coords) g)).
Proof.
  assert (Hwf : forall (A : Type) (g : list (list A)) (m : nat), rectangular m g ->
            from_one2 (mk_Array2 1 (len g) 1 (Z.of_nat m) g)).
  { intros A g m [_ Hg]. repeat split; simpl; [lia|].
    eapply Forall_impl; [exact Hg|]. intros row Hrow. unfold len. simpl in *. lia. }
  split; intros g m Hrect Hm; eexists.
  - split; [apply (to_tcolstd_array2_real_ok _ g m n0 Hrect Hm)|].
    apply (proj1 array2_readers_ok _ (Hwf _ g m Hrect)).
  - split; [apply (to_tcolgp_array2_pnt_ok _ g m n0 Hrect Hm)|].
    apply (proj2 array2_readers_ok _ (Hwf _ g m Hrect)).
Qed.

Lemma item2_nd_grid_cells (g : list (list float)) :
  forall i j row c, g !! i = Some row -> row !! j = Some c ->
                    item2 (nd_grid g) (Z.of_nat i) (Z.of_nat j) = Ok (NdScalar c).
Proof. intros i j row c. apply item2_nd_grid. Qed.

(** X16: what the two grid conversions do with an input of the wrong
    number of axes.  A flat sequence of numbers, the empty one included,
    makes both raise ValueError before any array is created, and so does a
    grid of triples given to the conversion of reals.  A grid of plain
    numbers given to the conversion of points has every entry turned down
    by the helper: the array is created, and storing the first entry
    raises TypeError. *)
Theorem grid_conversions_check_axes float_of_string n0 :
  (forall l : list float,
     to_tcolstd_array2_real float_of_string (PyList (map PyFloat l)) n0
     = (Raise ValueError, n0) /\
     to_tcolgp_array2_pnt float_of_string (PyList (map PyFloat l)) n0
     = (Raise ValueError, n0)) /\
  (forall (g : list (list gp_Pnt)) (m : nat), rectangular (S m) g ->
     to_tcolstd_array2_real float_of_string (point_grid g) n0
     = (Raise ValueError, n0)) /\
  (forall (g : list (list float)) (m : nat), rectangular (S m) g ->
     to_tcolgp_array2_pnt float_of_string (real_grid g) n0
     = (Raise TypeError, S n0)).
Proof.
  split; [|split].
  - intros l. unfold to_tcolstd_array2_real, to_tcolgp_array2_pnt, mbind, lift.
    rewrite np_array_real_row. unfold shape_pair, shape2.
    rewrite shape_nd_row. split; reflexivity.
  - intros g m [Hne Hg]. unfold to_tcolstd_array2_real, mbind, lift.
    rewrite (np_array_point_grid _ g (S m) Hg). unfold shape_pair.
    destruct g as [|row g]; [congruence|].
    unfold nd_point_grid. cbn [map shape length].
    rewrite shape_nd_point_row. inversion Hg; subst.
    destruct row; [discriminate|]. reflexivity.
  - intros g m Hrect. pose proof Hrect as [Hne Hg].
    unfold to_tcolgp_array2_pnt, mbind, lift.
    rewrite (np_array_real_grid _ g (S m) Hg). unfold shape2.
    rewrite (shape_nd_grid g (S m) Hrect).
    change (Z.of_nat (length g)) with (len g).
    rewrite (gather_cells_ok (nd_grid g) NdScalar (fun _ => None) g (S m) Hg
               (item2_nd_grid_cells g)) by reflexivity.
    unfold TColgp_Array2OfPnt.
    change (len g) with (Z.of_nat (length g)).
    rewrite (grid_bounds_accepted g (S m) Hne) by lia.
    destruct g as [|row g]; [congruence|]. inversion Hg; subst.
    destruct row as [|c row]; [discriminate|]. reflexivity.
Qed.

End Tcol2D.

(** ** The further conversions on sample inputs *)

Section TcolMoreInstances.
Import Tcol.

Lemma real_conversion_keeps_length_witness :
  exists arr,
    to_tcolstd_array1_real no_number sample_reals 0%nat = (Ok arr, 1%nat) /\
    Lower arr = 1 /\ Length arr = len sample_reals /\
    Forall2 (fun x v => py_float no_number x = Ok v) sample_reals (cells arr).
Proof.
  apply (proj1 (real_conversion_keeps_length no_number sample_reals 0%nat)).
  - discriminate.
  - repeat (apply List.Forall_cons; [eexists; reflexivity|]). apply List.Forall_nil.
Defined.

Lemma integer_conversion_keeps_length_witness :
  exists arr,
    to_tcolstd_array1_integer no_integer sample_integers 0%nat = (Ok arr, 1%nat) /\
    Lower arr = 1 /\ Length arr = len sample_integers /\
    Forall2 (fun x z => py_int no_integer x = Ok z) sample_integers (cells arr).
Proof.
  apply (proj1 (integer_conversion_keeps_length no_integer sample_integers 0%nat)).
  - discriminate.
  - repeat (apply List.Forall_cons;
            [eexists; split; [reflexivity | vm_compute; split; [discriminate | reflexivity]]|]).
    apply List.Forall_nil.
Defined.

Lemma readers_keep_every_cell_witness :
  exists out,
    to_np_from_tcolstd_array1_real (mk_Array1 1 2 [1; 2.5]%float) = Ok out /\
    len out = Length (mk_Array1 1 2 [1; 2.5]%float) /\
    forall i v, Value (Z.of_nat i + 1) (mk_Array1 1 2 [1; 2.5]%float) = Ok v ->
                out !! i = Some v.
Proof.
  apply (proj1 readers_keep_every_cell (mk_Array1 1 2 [1; 2.5]%float)).
  split; reflexivity.
Defined.

Lemma scalar_round_trip_witness :
  exists arr,
    to_tcolstd_array1_integer no_integer (map PyInt [1; -3; 7]) 0%nat
    = (Ok arr, 1%nat) /\
    to_np_from_tcolstd_array1_integer arr = Ok [1; -3; 7].
Proof.
  apply (proj2 (scalar_round_trip no_number no_integer 0%nat) [1; -3; 7]).
  - discriminate.
  - repeat (apply List.Forall_cons; [vm_compute; split; [discriminate | reflexivity]|]).
    apply List.Forall_nil.
Defined.

Lemma scalar_conversion_raises_first_failure_witness :
  to_tcolstd_array1_real no_number ([PyInt 1] ++ PyNone :: [PyStr "abc"]) 0%nat
  = (Raise TypeError, 0%nat).
Proof.
  apply (proj1 (scalar_conversion_raises_first_failure
                  no_number no_integer [PyInt 1] PyNone [PyStr "abc"] TypeError 0%nat)).
  - apply List.Forall_cons; [eexists; reflexivity | apply List.Forall_nil].
  - reflexivity.
Defined.

Lemma point_conversion_raises_on_bad_triple_witness :
  to_tcolgp_array1_pnt [Py_gp_Pnt origin; PyTuple [PyFloat 1; PyNone; PyFloat 3]] 0%nat
  = (Raise TypeError, 0%nat).
Proof.
  apply (proj1 (point_conversion_raises_on_bad_triple
                  [Py_gp_Pnt origin; PyTuple [PyFloat 1; PyNone; PyFloat 3]] 0%nat)).
  reflexivity.
Defined.

Lemma sibling_conversions_skip_witness :
  exists arr,
    to_tcolgp_array1_pnt2d sample_pairs 0%nat = (Ok arr, 1%nat) /\
    Lower arr = 1 /\
    Length arr = len sample_pairs
                 - len (List.filter (rejected _to_gp_pnt2d) sample_pairs) /\
    cells arr = omap (kept _to_gp_pnt2d) sample_pairs /\
    forall i q, omap (kept _to_gp_pnt2d) sample_pairs !! i = Some q ->
                Value (1 + Z.of_nat i) arr = Ok q.
Proof.
  apply (proj1 (sibling_conversions_skip sample_pairs 0%nat)).
  - repeat (apply List.Forall_cons; [eexists; reflexivity|]). apply List.Forall_nil.
  - vm_compute. lia.
Defined.

Lemma grid_readers_keep_every_cell_witness :
  exists out,
    to_np_from_tcolstd_array2_real (mk_Array2 1 2 1 3 sample_real_grid) = Ok out /\
    len out = ColLength (mk_Array2 1 2 1 3 sample_real_grid) /\
    forall i j v,
      Value2 (Z.of_nat i + 1) (Z.of_nat j + 1) (mk_Array2 1 2 1 3 sample_real_grid)
      = Ok v ->
      exists row, out !! i = Some row /\ row !! j = Some v.
Proof.
  apply (proj1 grid_readers_keep_every_cell (mk_Array2 1 2 1 3 sample_real_grid)).
  repeat split; try reflexivity; try discriminate.
  repeat (apply List.Forall_cons; [reflexivity|]). apply List.Forall_nil.
Defined.

Lemma real_grid_conversion_witness :
  exists arr,
    to_tcolstd_array2_real no_number (real_grid sample_real_grid) 0%nat
    = (Ok arr, 1%nat) /\
    LowerRow arr = 1 /\ UpperRow arr = len sample_real_grid /\
    LowerCol arr = 1 /\ UpperCol arr = Z.of_nat 3 /\
    forall i j row c, sample_real_grid !! i = Some row -> row !! j = Some c ->
                      Value2 (Z.of_nat i + 1) (Z.of_nat j + 1) arr = Ok c.
Proof.
  apply (real_grid_conversion no_number sample_real_grid 3 0%nat).
  - split; [discriminate|].
    repeat (apply List.Forall_cons; [reflexivity|]). apply List.Forall_nil.
  - lia.
Defined.

Lemma point_grid_conversion_witness :
  exists arr,
    to_tcolgp_array2_pnt no_number (point_grid sample_point_grid) 0%nat
    = (Ok arr, 1%nat) /\
    LowerRow arr = 1 /\ UpperRow arr = len sample_point_grid /\
    LowerCol arr = 1 /\ UpperCol arr = Z.of_nat 3 /\
    forall i j row c, sample_point_grid !! i = Some row -> row !! j = Some c ->
                      Value2 (Z.of_nat i + 1) (Z.of_nat j + 1) arr = Ok c.
Proof.
  apply (point_grid_conversion no_number sample_point_grid 3 0%nat).
  - split; [discriminate|].
    repeat (apply List.Forall_cons; [reflexivity|]). apply List.Forall_nil.
  - lia.
Defined.

Lemma grid_round_trip_witness :
  exists arr,
    to_tcolgp_array2_pnt no_number (point_grid sample_point_grid) 0%nat
    = (Ok arr, 1%nat) /\
    to_np_from_tcolgp_array2_pnt arr = Ok (map (map coords) sample_point_grid).
Proof.
  apply (proj2 (grid_round_trip no_number 0%nat) sample_point_grid 3%nat).
  - split; [discriminate|].
    repeat (apply List.Forall_cons; [reflexivity|]). apply List.Forall_nil.
  - lia.
Defined.

Lemma grid_conversions_check_axes_witness :
  to_tcolgp_array2_pnt no_number (real_grid sample_real_grid) 0%nat
  = (Raise TypeError, 1%nat).
Proof.
  apply (proj2 (proj2 (grid_conversions_check_axes no_number 0%nat)) sample_real_grid 2%nat).
  split; [discriminate|].
  repeat (apply List.Forall_cons; [reflexivity|]). apply List.Forall_nil.
Defined.

End TcolMoreInstances.
